(** * Chess Arena signups dashboard: the GA4 report adapter and the funnel table

    A shallow embedding of [app.py]: the report-shaping function
    [run_ga4_report] and the module-level funnel computation, followed by
    the properties the specification states about them.

    Conventions of the embedding.
    - Python [str] is [string]; a literal is the bytes of its UTF-8 text.
    - The builtins [str.upper], [repr] and [int] know all of Unicode and
      are no part of this program: the program is embedded over an
      interface of them, [Python], and every statement holds for every
      implementation of that interface.
    - Python [int] is [Z]; the ["Total"] column of the data frame holds
      binary64 floats (pandas turns a column of [None] and 64-bit ints
      into float64 with NaN for [None]), modelled by the kernel's
      [PrimFloat]. Counts outside the range of a 64-bit integer are outside
      this model of the column; the statements about the funnel table say
      so.
    - A dict keyed by strings is a [gmap string Z].
    - Exceptions are values of [exn]; code that may raise returns a
      [result]; [run_ga4_report], which talks to the backend and to the
      Streamlit error channel, lives in the state-and-exception monad [M].
    - [run_ga4_report] is embedded as its body, which is what runs when
      [st.cache_data] holds no entry for the arguments of the call. *)

From Stdlib Require Import ZArith String Ascii List Lia Bool DecimalString.
From Stdlib Require PrimFloat FloatOps SpecFloat FloatAxioms DecimalPos.
From stdpp Require Import base option list gmap strings.

Import ListNotations.
Local Open Scope string_scope.

(* ================================================================== *)
(** * Exceptions and the [result] monad *)
(* ================================================================== *)

(** The failures of the Analytics Reporting Service the dashboard
    distinguishes ([google.api_core.exceptions]). *)
Inductive backend_failure : Type :=
  | PermissionDenied
  | InvalidArgument
  | ServiceUnavailable.

(** A [KeyError] is kept with the text it shows, the [repr] of the key
    that was not found; a [ValueError] with its message. *)
Inductive exn : Type :=
  | KeyError (shown : string)
  | IndexError
  | ValueError (message : string)
  | AttributeError
  | ZeroDivisionError
  | OverflowError
  | GoogleAPICallError (kind : backend_failure) (message : string).

(** [str(e)], as interpolated into the operator-facing message. *)
Definition exn_str (e : exn) : string :=
  match e with
  | KeyError shown => shown
  | IndexError => "list index out of range"
  | ValueError message => message
  | AttributeError => "'int' object has no attribute 'get'"
  | ZeroDivisionError => "division by zero"
  | OverflowError => "date value out of range"
  | GoogleAPICallError _ message => message
  end.

Inductive result (A : Type) : Type :=
  | Ok (a : A)
  | Err (e : exn).
Arguments Ok {A} a.
Arguments Err {A} e.

#[global] Instance result_ret : MRet result := fun A a => Ok a.
#[global] Instance result_bind : MBind result := fun A B f m =>
  match m with
  | Ok a => f a
  | Err e => Err e
  end.

(* ================================================================== *)
(** * Strings *)
(* ================================================================== *)

Module Str.

Definition is_lower (c : ascii) : bool :=
  let n := nat_of_ascii c in (97 <=? n)%nat && (n <=? 122)%nat.

(** Upper-casing of the letters a to z, which is [str.upper] on ASCII
    text; every other byte is unchanged. *)
Definition upper_ascii (c : ascii) : ascii :=
  if is_lower c then ascii_of_nat (nat_of_ascii c - 32) else c.

Fixpoint upper (s : string) : string :=
  match s with
  | EmptyString => EmptyString
  | String c s' => String (upper_ascii c) (upper s')
  end.

(** Two characters that are the same letter, whatever the case. *)
Definition same_letter (a b : ascii) : Prop :=
  a = b
  \/ (is_lower a = true /\ nat_of_ascii b + 32 = nat_of_ascii a)
  \/ (is_lower b = true /\ nat_of_ascii a + 32 = nat_of_ascii b).

(** Two strings that are identical except for the case of letters. *)
Fixpoint differ_only_in_case (s t : string) : Prop :=
  match s, t with
  | EmptyString, EmptyString => True
  | String a s', String b t' => same_letter a b /\ differ_only_in_case s' t'
  | _, _ => False
  end.

(** ASCII whitespace: tab, line feed, vertical tab, form feed, carriage
    return and space. *)
Definition is_space (c : ascii) : bool :=
  let n := nat_of_ascii c in
  ((9 <=? n)%nat && (n <=? 13)%nat) || (n =? 32)%nat.

Definition is_digit (c : ascii) : bool :=
  let n := nat_of_ascii c in (48 <=? n)%nat && (n <=? 57)%nat.

Definition digit_value (c : ascii) : Z := Z.of_nat (nat_of_ascii c) - 48.

Fixpoint lstrip (s : string) : string :=
  match s with
  | String c s' => if is_space c then lstrip s' else s
  | EmptyString => EmptyString
  end.

Fixpoint rev_onto (s acc : string) : string :=
  match s with
  | EmptyString => acc
  | String c s' => rev_onto s' (String c acc)
  end.

Definition rev (s : string) : string := rev_onto s EmptyString.

Definition strip (s : string) : string := rev (lstrip (rev (lstrip s))).

Fixpoint repeat (c : ascii) (n : nat) : string :=
  match n with
  | O => EmptyString
  | S n' => String c (repeat c n')
  end.

(** Left-pad with [c] up to [width] characters. *)
Definition rjust (width : nat) (c : ascii) (s : string) : string :=
  repeat c (width - String.length s) ++ s.

Definition of_Z (n : Z) : string :=
  match n with
  | Z0 => "0"
  | Zpos p => NilEmpty.string_of_uint (Pos.to_uint p)
  | Zneg p => "-" ++ NilEmpty.string_of_uint (Pos.to_uint p)
  end.

(** The text is ASCII: no byte of it is 128 or more. *)
Fixpoint is_ascii (s : string) : bool :=
  match s with
  | EmptyString => true
  | String c s' => (nat_of_ascii c <? 128)%nat && is_ascii s'
  end.

Fixpoint contains (c : ascii) (s : string) : bool :=
  match s with
  | EmptyString => false
  | String c' s' => Ascii.eqb c c' || contains c s'
  end.

Definition apostrophe : ascii := ascii_of_nat 39.
Definition double_quote : ascii := ascii_of_nat 34.
Definition backslash : ascii := ascii_of_nat 92.

Definition hex_digit (n : nat) : ascii :=
  if (n <? 10)%nat then ascii_of_nat (48 + n) else ascii_of_nat (87 + n).

(** A character inside [repr]: the quote and the backslash are escaped,
    tab, line feed and carriage return have their letter, and any other
    control character is [\xhh]. *)
Definition escape (quote c : ascii) : string :=
  let n := nat_of_ascii c in
  if Ascii.eqb c quote || Ascii.eqb c backslash
  then String backslash (String c EmptyString)
  else if (n =? 9)%nat then String backslash "t"
  else if (n =? 10)%nat then String backslash "n"
  else if (n =? 13)%nat then String backslash "r"
  else if (n <? 32)%nat || (n =? 127)%nat
  then String backslash
         (String "x"
            (String (hex_digit (n / 16)) (String (hex_digit (n mod 16))
                                            EmptyString)))
  else String c EmptyString.

Fixpoint escape_all (quote : ascii) (s : string) : string :=
  match s with
  | EmptyString => EmptyString
  | String c s' => escape quote c ++ escape_all quote s'
  end.

(** [repr(s)] of an ASCII text: between apostrophes, or between double
    quotes when the text holds an apostrophe and no double quote. *)
Definition repr (s : string) : string :=
  let quote :=
    if contains apostrophe s && negb (contains double_quote s)
    then double_quote else apostrophe in
  String quote (escape_all quote s ++ String quote EmptyString).

End Str.

(** ** [int] on ASCII text

    [int(text)] for an ASCII [str] in base 10 (CPython's
    [PyLong_FromString]): surrounding whitespace is dropped, one sign is
    allowed, and single underscores may separate digits. [int_digits] is
    the value of such a run of digits, [digit_run] the number of digits of
    the run at the head of a text, which the interpreter bounds (4300 by
    default) before it looks at what follows the run. *)
Fixpoint int_digits (acc : Z) (after_digit : bool) (s : string) : option Z :=
  match s with
  | EmptyString => if after_digit then Some acc else None
  | String c s' =>
      if Str.is_digit c then int_digits (10 * acc + Str.digit_value c) true s'
      else if (Ascii.eqb c "_" && after_digit)%bool then int_digits acc false s'
      else None
  end.

(** The digits of the leading run of digits and underscores, [None] when
    the run has two underscores in a row or ends in one. *)
Fixpoint digit_run (after_underscore : bool) (s : string) : option nat :=
  match s with
  | EmptyString => if after_underscore then None else Some 0%nat
  | String c s' =>
      if Str.is_digit c then option_map S (digit_run false s')
      else if Ascii.eqb c "_" then
        if after_underscore then None else digit_run true s'
      else if after_underscore then None else Some 0%nat
  end.

Definition MAX_STR_DIGITS : nat := 4300.

Definition invalid_literal (text : string) : exn :=
  ValueError ("invalid literal for int() with base 10: "
                ++ String.substring 0 200 (Str.repr text)).

Definition exceeds_limit (digits : nat) : exn :=
  ValueError ("Exceeds the limit (4300 digits) for integer string conversion: value has "
                ++ Str.of_Z (Z.of_nat digits)
                ++ " digits; use sys.set_int_max_str_digits() to increase the limit").

Definition py_int (text : string) : result Z :=
  let body := Str.strip text in
  let '(negative, digits) :=
    match body with
    | String c s' =>
        if Ascii.eqb c "-" then (true, s')
        else if Ascii.eqb c "+" then (false, s')
        else (false, body)
    | EmptyString => (false, body)
    end in
  let run :=
    match digits with
    | String c _ => if Ascii.eqb c "_" then None else digit_run false digits
    | EmptyString => digit_run false digits
    end in
  match run with
  | None => Err (invalid_literal text)
  | Some n =>
      if (MAX_STR_DIGITS <? n)%nat then Err (exceeds_limit n)
      else
        match int_digits 0 false digits with
        | Some v => Ok (if negative : bool then (- v)%Z else v)
        | None => Err (invalid_literal text)
        end
  end.

(* ================================================================== *)
(** * The builtins of the interpreter *)
(* ================================================================== *)

(** [str.upper], [repr] of a [str] and [int] of a [str] work on Unicode
    text: [upper] maps a letter of any script, [int] reads the decimal
    digits and skips the whitespace of any script, [repr] escapes what
    cannot be printed. The program is embedded over these three, with the
    two facts about [str.upper] that its properties rest on: on ASCII text
    it is the upper-casing of the letters a to z, and it maps two texts
    that differ only in the case of such letters to the same text (it
    works character by character). *)
Record Python : Type := mkPython {
  str_upper : string -> string;
  str_repr : string -> string;
  int_of_str : string -> result Z;
  str_upper_ascii :
    forall s, Str.is_ascii s = true -> str_upper s = Str.upper s;
  str_upper_case :
    forall s t, Str.differ_only_in_case s t -> str_upper s = str_upper t
}.

(** The builtins on ASCII text, on which the embedding is run on sample
    inputs. *)
Definition ascii_python : Python.
Proof.
  refine {| str_upper := Str.upper;
            str_repr := Str.repr;
            int_of_str := py_int |}.
  - reflexivity.
  - assert (Hcase : forall x y : ascii,
               Str.is_lower x = true ->
               (nat_of_ascii y + 32 = nat_of_ascii x)%nat ->
               Str.upper_ascii x = Str.upper_ascii y).
    { intros x y Hx Hxy; unfold Str.upper_ascii; rewrite Hx.
      unfold Str.is_lower in *; cbv zeta in *.
      apply andb_true_iff in Hx as [H1 H2].
      apply Nat.leb_le in H1; apply Nat.leb_le in H2.
      replace (97 <=? nat_of_ascii y)%nat with false
        by (symmetry; apply Nat.leb_gt; lia).
      simpl; rewrite <- Hxy.
      replace (nat_of_ascii y + 32 - 32)%nat with (nat_of_ascii y) by lia.
      apply ascii_nat_embedding. }
    intros s; induction s as [|a s IH]; intros [|b t]; simpl; try tauto.
    intros [Hab Hst]; rewrite (IH _ Hst); f_equal.
    destruct Hab as [->|[[Ha Hab]|[Hb Hba]]]; [reflexivity| |].
    + apply Hcase; assumption.
    + symmetry; apply Hcase; assumption.
Defined.

(* ================================================================== *)
(** * binary64 floats and the two format specifications *)
(* ================================================================== *)

Module Float.

Abbreviation float := PrimFloat.float.

Definition zero : float := PrimFloat.zero.
Definition one : float := PrimFloat.one.
Definition nan : float := PrimFloat.nan.

(** An int stored into a float64 column: the nearest binary64 value,
    ties to even. *)
Definition of_Z (n : Z) : float :=
  FloatOps.SF2Prim
    (SpecFloat.binary_normalize FloatOps.prec FloatOps.emax n 0 false).

Definition hundred : float := Eval vm_compute in of_Z 100.

(** [pd.notna(x)] on a float. *)
Definition notna (x : float) : bool := negb (PrimFloat.is_nan x).

(** [x > 0]. *)
Definition gt0 (x : float) : bool := PrimFloat.ltb zero x.

Definition is_zero (x : float) : bool := PrimFloat.eqb x zero.

(** [a / b], with a zero divisor reported as Python's
    [ZeroDivisionError] (numpy would warn and produce inf or nan). *)
Definition truediv (a b : float) : result float :=
  if is_zero b then Err ZeroDivisionError else Ok (PrimFloat.div a b).

Definition sub (a b : float) : float := PrimFloat.sub a b.

(** The integer nearest to [num / den], ties to the even one. *)
Definition round_half_even (num den : Z) : Z :=
  let q := (num / den)%Z in
  let r := (num mod den)%Z in
  match (2 * r ?= den)%Z with
  | Lt => q
  | Gt => (q + 1)%Z
  | Eq => if Z.even q then q else (q + 1)%Z
  end.

(** The integer nearest to [m * 2^e * 10^digits], ties to even: the
    digits of the correctly rounded fixed-point rendering. *)
Definition scaled (digits : nat) (m : positive) (e : Z) : Z :=
  let num := (Z.pos m * 10 ^ Z.of_nat digits)%Z in
  if (0 <=? e)%Z then (num * 2 ^ e)%Z else round_half_even num (2 ^ (- e)).

(** Groups of three digits from the right, separated by commas. *)
Fixpoint group3 (fuel : nat) (s : string) : string :=
  match fuel with
  | O => s
  | S fuel' =>
      let n := String.length s in
      if (n <=? 3)%nat then s
      else group3 fuel' (String.substring 0 (n - 3) s) ++ ","
             ++ String.substring (n - 3) 3 s
  end.

Definition fixed_digits (comma : bool) (digits : nat) (n : Z) : string :=
  let ds := Str.rjust (S digits) "0" (Str.of_Z n) in
  let k := (String.length ds - digits)%nat in
  let int_part := String.substring 0 k ds in
  let int_part := if comma then group3 (String.length int_part) int_part
                  else int_part in
  match digits with
  | O => int_part
  | _ => int_part ++ "." ++ String.substring k digits ds
  end.

(** [format(x, ".<digits>f")], with the [","] option when [comma]. *)
Definition format_f (comma : bool) (digits : nat) (x : float) : string :=
  match FloatOps.Prim2SF x with
  | SpecFloat.S754_nan => "nan"
  | SpecFloat.S754_infinity s => if s then "-inf" else "inf"
  | SpecFloat.S754_zero s =>
      (if s then "-" else "") ++ fixed_digits comma digits 0
  | SpecFloat.S754_finite s m e =>
      (if s then "-" else "") ++ fixed_digits comma digits (scaled digits m e)
  end.

(** [f"{x:.2%}"]: the value is multiplied by 100 as a float, rendered
    with two decimals, and followed by a percent sign. *)
Definition format_pct2 (x : float) : string :=
  format_f false 2 (PrimFloat.mul x hundred) ++ "%".

(** [f"{x:,.0f}"]. *)
Definition format_comma0 (x : float) : string := format_f true 0 x.

End Float.
Abbreviation float := Float.float.

(* ================================================================== *)
(** * The Analytics Data API: requests and responses *)
(* ================================================================== *)

(** [Filter.StringFilter.MatchType], the enumeration of the client
    library, looked up by member name. *)
Inductive MatchType : Type :=
  | MATCH_TYPE_UNSPECIFIED
  | EXACT
  | BEGINS_WITH
  | ENDS_WITH
  | CONTAINS
  | FULL_REGEXP
  | PARTIAL_REGEXP.

Definition MatchType_members : list (string * MatchType) :=
  [ ("MATCH_TYPE_UNSPECIFIED", MATCH_TYPE_UNSPECIFIED);
    ("EXACT", EXACT);
    ("BEGINS_WITH", BEGINS_WITH);
    ("ENDS_WITH", ENDS_WITH);
    ("CONTAINS", CONTAINS);
    ("FULL_REGEXP", FULL_REGEXP);
    ("PARTIAL_REGEXP", PARTIAL_REGEXP) ].

Fixpoint assoc {V : Type} (key : string) (l : list (string * V)) : option V :=
  match l with
  | [] => None
  | (k, v) :: l' => if String.eqb k key then Some v else assoc key l'
  end.

(** [MatchType[name]]: a [KeyError] for a name that is no member. *)
Definition MatchType_getitem (py : Python) (name : string)
  : result MatchType :=
  match assoc name MatchType_members with
  | Some m => Ok m
  | None => Err (KeyError (str_repr py name))
  end.

Record StringFilter : Type := mkStringFilter {
  value : string;
  match_type : MatchType
}.

Record Filter : Type := mkFilter {
  field_name : string;
  string_filter : StringFilter
}.

(** The two shapes of [FilterExpression] this program builds. *)
#[warnings="-register-all"]
Inductive FilterExpression : Type :=
  | FE_filter (f : Filter)
  | FE_and_group (expressions : list FilterExpression).

Record Metric : Type := mkMetric { metric_name : string }.
Record Dimension : Type := mkDimension { dimension_name : string }.

Record DateRange : Type := mkDateRange {
  start_date : string;
  end_date : string
}.

Record RunReportRequest : Type := mkRunReportRequest {
  property : string;
  metrics : list Metric;
  date_ranges : list DateRange;
  dimensions : option (list Dimension);
  dimension_filter : option FilterExpression
}.

(** A row carries its dimension values and metric values as strings. *)
Record Row : Type := mkRow {
  dimension_values : list string;
  metric_values : list string
}.

Record RunReportResponse : Type := mkRunReportResponse {
  rows : list Row
}.

(** What [run_ga4_report] returns: an int, or a dict from dimension value
    to metric value. *)
Inductive ReportResult : Type :=
  | RInt (n : Z)
  | RDict (d : gmap string Z).

(** A filter triple [(field_name, value, match_type_str)]. *)
Definition filter_spec : Type := string * string * string.

(** Truthiness of an optional tuple: [None] and [()] are false. *)
Definition truthy {A : Type} (t : option (list A)) : bool :=
  match t with
  | Some (_ :: _) => true
  | _ => false
  end.

(** [xs[0]]. *)
Definition head0 {A : Type} (xs : list A) : result A :=
  match xs with
  | x :: _ => Ok x
  | [] => Err IndexError
  end.

(* ================================================================== *)
(** * Dates: [datetime], [timedelta(days=...)] and [strftime] *)
(* ================================================================== *)

(** An aware [datetime] is kept as its proleptic Gregorian day number
    ([toordinal()]), its wall-clock fields and the name of its zone;
    arithmetic with a [timedelta] works on exactly these, and the
    calendar date is recovered from the day number. *)
Record datetime : Type := mkDatetime {
  ordinal : Z;
  hour : Z;
  minute : Z;
  second : Z;
  microsecond : Z;
  tzinfo : string
}.

Module Calendar.
Local Open Scope Z_scope.

Definition MAXORDINAL : Z := 3652059.
Definition DI400Y : Z := 146097.
Definition DI100Y : Z := 36524.
Definition DI4Y : Z := 1461.

Definition DAYS_IN_MONTH (month : Z) : Z :=
  match month with
  | 1 => 31 | 2 => 28 | 3 => 31 | 4 => 30 | 5 => 31 | 6 => 30
  | 7 => 31 | 8 => 31 | 9 => 30 | 10 => 31 | 11 => 30 | 12 => 31
  | _ => -1
  end.

Definition DAYS_BEFORE_MONTH (month : Z) : Z :=
  match month with
  | 1 => 0 | 2 => 31 | 3 => 59 | 4 => 90 | 5 => 120 | 6 => 151
  | 7 => 181 | 8 => 212 | 9 => 243 | 10 => 273 | 11 => 304 | 12 => 334
  | _ => -1
  end.

Definition b2z (b : bool) : Z := if b then 1 else 0.

(** The date of day number [n], day 1 being 0001-01-01. *)
Definition ord2ymd (n : Z) : Z * Z * Z :=
  let n := n - 1 in
  let n400 := n / DI400Y in
  let n := n mod DI400Y in
  let year := n400 * 400 + 1 in
  let n100 := n / DI100Y in
  let n := n mod DI100Y in
  let n4 := n / DI4Y in
  let n := n mod DI4Y in
  let n1 := n / 365 in
  let n := n mod 365 in
  let year := year + n100 * 100 + n4 * 4 + n1 in
  if (n1 =? 4) || (n100 =? 4) then (year - 1, 12, 31)
  else
    let leapyear := (n1 =? 3) && (negb (n4 =? 24) || (n100 =? 3)) in
    let month := Z.shiftr (n + 50) 5 in
    let preceding := DAYS_BEFORE_MONTH month + b2z ((2 <? month) && leapyear) in
    if n <? preceding then
      let month := month - 1 in
      let preceding :=
        preceding - (DAYS_IN_MONTH month + b2z ((month =? 2) && leapyear)) in
      (year, month, n - preceding + 1)
    else (year, month, n - preceding + 1).

Definition pad (width : nat) (n : Z) : string :=
  Str.rjust width "0" (Str.of_Z n).

(** [dt.strftime('%Y-%m-%d')] with the C library of Linux: the year as
    it is, without padding, the month and the day on two digits. *)
Definition strftime_Ymd (dt : datetime) : string :=
  let '(y, m, d) := ord2ymd (ordinal dt) in
  Str.of_Z y ++ "-" ++ pad 2 m ++ "-" ++ pad 2 d.

(** [dt.replace(hour=0, minute=0, second=0, microsecond=0)]. *)
Definition replace_midnight (dt : datetime) : datetime :=
  mkDatetime (ordinal dt) 0 0 0 0 (tzinfo dt).

(** [dt - timedelta(days=days)]: the wall-clock fields and the zone
    are kept, and a day number outside [1 .. MAXORDINAL] is an
    [OverflowError]. *)
Definition sub_days (dt : datetime) (days : Z) : result datetime :=
  let o := ordinal dt - days in
  if (0 <? o) && (o <=? MAXORDINAL)
  then Ok (mkDatetime o (hour dt) (minute dt) (second dt) (microsecond dt)
             (tzinfo dt))
  else Err OverflowError.

(** [dt.date()], as a day number. *)
Definition date (dt : datetime) : Z := ordinal dt.

End Calendar.

(** [format_date]: formats a datetime into a YYYY-MM-DD string. *)
Definition format_date (dt : datetime) : string := Calendar.strftime_Ymd dt.

(* ================================================================== *)
(** * The world of a render: error channel and backend calls *)
(* ================================================================== *)

(** What a render leaves behind: the messages shown with [st.error] and
    the requests sent to the Analytics Reporting Service, oldest first. *)
Record World : Type := mkWorld {
  st_errors : list string;
  ga4_requests : list RunReportRequest
}.

Definition M (A : Type) : Type := World -> result A * World.

#[global] Instance M_ret : MRet M := fun A a w => (Ok a, w).
#[global] Instance M_bind : MBind M := fun A B f m w =>
  match m w with
  | (Ok a, w') => f a w'
  | (Err e, w') => (Err e, w')
  end.

(** A computation that only raises or returns. *)
Definition lift {A : Type} (r : result A) : M A := fun w => (r, w).

(** [st.error(message)]. *)
Definition st_error (message : string) : M unit := fun w =>
  (Ok tt, mkWorld (st_errors w ++ [message]) (ga4_requests w)).

(** [try: body / except Exception as e: handler e]. *)
Definition try_except {A : Type} (body : M A) (handler : exn -> M A) : M A :=
  fun w =>
    match body w with
    | (Ok a, w') => (Ok a, w')
    | (Err e, w') => handler e w'
    end.

(* ================================================================== *)
(** * [run_ga4_report] *)
(* ================================================================== *)

Section Report.

(** The builtins. *)
Variable py : Python.

(** [st.secrets["GA4_PROPERTY_ID"]]. *)
Variable property_id : string.

(** The Analytics Reporting Service during one render: the response, or
    the failure, for each request. *)
Variable ga4_backend : RunReportRequest -> result RunReportResponse.

(** [ga4.run_report(request)]. *)
Definition ga4_run_report (request : RunReportRequest)
  : M RunReportResponse := fun w =>
  (ga4_backend request,
   mkWorld (st_errors w) (ga4_requests w ++ [request])).

(** The body of the loop over [filter_specs] (app.py, lines 89-95). *)
Definition build_filter (spec : filter_spec) : result Filter :=
  let '(field_name, value, match_type_str) := spec in
  match_type ← MatchType_getitem py (str_upper py match_type_str);
  mret (mkFilter field_name (mkStringFilter value match_type)).

(** The [filter_expression] of the request (lines 86-100). *)
Definition build_filter_expression (filter_specs : option (list filter_spec))
  : result (option FilterExpression) :=
  if truthy filter_specs then
    filters ← mapM build_filter (default [] filter_specs);
    if (length filters =? 1)%nat then
      f ← head0 filters;
      mret (Some (FE_filter f))
    else
      mret (Some (FE_and_group (map FE_filter filters)))
  else mret None.

(** The request, built in the first half of the [try] block
    (lines 83-109). *)
Definition build_request (metric_names : list string)
    (start_date end_date : datetime)
    (dimension_names : option (list string))
    (filter_specs : option (list filter_spec)) : result RunReportRequest :=
  let metrics := map mkMetric metric_names in
  let dimensions :=
    if truthy dimension_names
    then Some (map mkDimension (default [] dimension_names))
    else None in
  filter_expression ← build_filter_expression filter_specs;
  mret (mkRunReportRequest
          ("properties/" ++ property_id)
          metrics
          [mkDateRange (format_date start_date) (format_date end_date)]
          dimensions
          filter_expression).

(** The loop over [response.rows] of the dimensioned branch
    (lines 116-121). *)
Fixpoint rows_to_dict (rows : list Row) (result_dict : gmap string Z)
  : result (gmap string Z) :=
  match rows with
  | [] => Ok result_dict
  | row :: rows' =>
      dimension_value ← head0 (dimension_values row);
      metric_text ← head0 (metric_values row);
      metric_value ← int_of_str py metric_text;
      rows_to_dict rows' (<[dimension_value := metric_value]> result_dict)
  end.

(** The second half of the [try] block (lines 113-121): the response
    shaped by whether dimensions were requested. *)
Definition shape_response (dimensions : option (list Dimension))
    (response : RunReportResponse) : result ReportResult :=
  if negb (truthy dimensions) then
    match rows response with
    | [] => mret (RInt 0)
    | _ :: _ =>
        row ← head0 (rows response);
        metric_text ← head0 (metric_values row);
        n ← int_of_str py metric_text;
        mret (RInt n)
    end
  else
    result_dict ← rows_to_dict (rows response) ∅;
    mret (RDict result_dict).

(** The value returned by the [except] branch (line 126). *)
Definition safe_default (dimension_names : option (list string))
  : ReportResult :=
  if truthy dimension_names then RDict ∅ else RInt 0.

(** [run_ga4_report] (lines 74-126): the body of the function, which is
    what a call runs when [st.cache_data] holds no entry for its
    arguments. A call that the cache answers runs none of it: it sends no
    request and returns the stored result. *)
Definition run_ga4_report (metric_names : list string)
    (start_date end_date : datetime)
    (dimension_names : option (list string))
    (filter_specs : option (list filter_spec)) : M ReportResult :=
  try_except
    (request ← lift (build_request metric_names start_date end_date
                       dimension_names filter_specs);
     response ← ga4_run_report request;
     lift (shape_response (dimensions request) response))
    (fun e =>
       _ ← st_error ("Error fetching from GA4: " ++ exn_str e);
       mret (safe_default dimension_names)).

End Report.

(* ================================================================== *)
(** * The funnel *)
(* ================================================================== *)

Definition TIMEZONE : string := "America/Los_Angeles".
Definition LOOKBACK_OPTIONS : list Z := [7; 14; 30]%Z.

(** The "no data" marker of the table, an em dash. *)
Definition SENTINEL : string := "—".

(** The wall clock of the reference zone at the instant of the render,
    as the environment supplies it. *)
Record wall_clock : Type := mkWallClock {
  clock_ordinal : Z;
  clock_hour : Z;
  clock_minute : Z;
  clock_second : Z;
  clock_microsecond : Z
}.

(** [datetime.now(tz)]. *)
Definition datetime_now (tz : string) (clock : wall_clock) : datetime :=
  mkDatetime (clock_ordinal clock) (clock_hour clock) (clock_minute clock)
    (clock_second clock) (clock_microsecond clock) tz.

(** Date handling for the funnel (lines 161-178):
    [(range_start, range_end)]. *)
Definition funnel_date_range (clock : wall_clock) (lookback_days : Z)
  : result (datetime * datetime) :=
  let tz := TIMEZONE in
  let now := datetime_now tz clock in
  let today_start_la := Calendar.replace_midnight now in
  let today_end_la := now in
  range_start ← Calendar.sub_days today_start_la (lookback_days - 1);
  let range_end := today_end_la in
  mret (range_start, range_end).

Definition funnel_event_names_regex : string :=
  "page_view|click_register|discord_signin".

Definition funnel_metric_names : list string := ["totalUsers"].
Definition funnel_dimension_names : option (list string) := Some ["eventName"].
Definition funnel_filter_specs : option (list filter_spec) :=
  Some [("eventName", funnel_event_names_regex, "FULL_REGEXP")].

(** [funnel_event_counts.get(key, dflt)]. *)
Definition dict_get (counts : ReportResult) (key : string) (dflt : Z)
  : result Z :=
  match counts with
  | RDict d => Ok (default dflt (d !! key))
  | RInt _ => Err AttributeError
  end.

(** A funnel step: its label and its total, [None] for the placeholder. *)
Definition funnel_steps (page_views register_clicks discord_signins : Z)
  : list (string * option Z) :=
  [ ("Social Media Impressions", None);
    ("Landing Page Visits", Some page_views);
    ("Clicked Register", Some register_clicks);
    ("Signed in with Discord", Some discord_signins) ].

(** The ["Total"] column of [pd.DataFrame(funnel_steps)] for totals in
    the range of a 64-bit integer, which is the range of an integer
    metric of the API: float64, with NaN where the step has no total.
    (pandas keeps larger ints in a column of Python objects, which this
    column does not model.) *)
Definition Total_column (steps : list (string * option Z)) : list float :=
  map (fun step =>
         match snd step with
         | Some n => Float.of_Z n
         | None => Float.nan
         end) steps.

(** [column.iloc[i]]. *)
Definition iloc (column : list float) (i : nat) : result float :=
  match column !! i with
  | Some x => Ok x
  | None => Err IndexError
  end.

(** [funnel_df[name] = values] for a list: the lengths must agree. *)
Definition set_column (n : nat) (values : list string) : result (list string) :=
  if (length values =? n)%nat then Ok values
  else Err (ValueError "Length of values does not match length of index").

(** The condition of the [if] that guards the derived columns
    (line 206); [and] evaluates from left to right and stops early. *)
Definition baseline_guard (Total : list float) : result bool :=
  if (1 <? length Total)%nat then
    t ← iloc Total 1;
    if Float.notna t then
      t' ← iloc Total 1;
      mret (Float.gt0 t')
    else mret false
  else mret false.

(** The loop that fills [percentages] (lines 210-211). *)
Fixpoint percentages_loop (baseline_total : float) (totals : list float)
    (percentages : list string) : result (list string) :=
  match totals with
  | [] => Ok percentages
  | total :: totals' =>
      ratio ← Float.truediv total baseline_total;
      percentages_loop baseline_total totals'
        (percentages ++ [Float.format_pct2 ratio])
  end.

(** The loop that fills [drop_offs] over [range(1, len(funnel_df) - 1)]
    (lines 215-222). *)
Fixpoint drop_offs_loop (Total : list float) (range : list nat)
    (drop_offs : list string) : result (list string) :=
  match range with
  | [] => Ok drop_offs
  | i :: range' =>
      current ← iloc Total i;
      next_val ← iloc Total (i + 1);
      if Float.notna current && Float.gt0 current && Float.notna next_val then
        ratio ← Float.truediv next_val current;
        let drop_off_rate := Float.sub Float.one ratio in
        drop_offs_loop Total range'
          (drop_offs ++ [Float.format_pct2 drop_off_rate])
      else
        drop_offs_loop Total range' (drop_offs ++ [SENTINEL])
  end.

(** The two derived columns, ["% of Impressions"] and ["Drop-off"], of a
    data frame whose ["Total"] column is [Total] (lines 206-227). *)
Definition derived_columns (Total : list float)
  : result (list string * list string) :=
  let n := length Total in
  guard ← baseline_guard Total;
  if guard : bool then
    baseline_total ← iloc Total 1;
    percentages ← percentages_loop baseline_total (drop 1 Total) [SENTINEL];
    pct_column ← set_column n percentages;
    drop_offs ← drop_offs_loop Total (seq 1 (n - 1 - 1)) [SENTINEL];
    let drop_offs := (drop_offs ++ [SENTINEL])%list in
    drop_column ← set_column n drop_offs;
    mret (pct_column, drop_column)
  else
    mret (replicate n SENTINEL, replicate n SENTINEL).

(** The rendering of the ["Total"] column (line 229). *)
Definition render_total (x : float) : string :=
  if Float.notna x then Float.format_comma0 x else SENTINEL.

(** The table handed to [st.dataframe], column by column. *)
Record FunnelTable : Type := mkFunnelTable {
  Step : list string;
  Total : list string;
  pct_of_Impressions : list string;
  Drop_off : list string
}.

(** The funnel computations after the report has come back
    (lines 191-229). *)
Definition funnel_table (funnel_event_counts : ReportResult)
  : result FunnelTable :=
  page_views ← dict_get funnel_event_counts "page_view" 0;
  register_clicks ← dict_get funnel_event_counts "click_register" 0;
  discord_signins ← dict_get funnel_event_counts "discord_signin" 0;
  let steps := funnel_steps page_views register_clicks discord_signins in
  let totals := Total_column steps in
  '(pct_column, drop_column) ← derived_columns totals;
  mret (mkFunnelTable (map fst steps) (map render_total totals)
          pct_column drop_column).

Section Dashboard.

Variable py : Python.
Variable property_id : string.
Variable ga4_backend : RunReportRequest -> result RunReportResponse.

(** The funnel part of a render (lines 161-229): date handling, the
    report, the table; the report is the body of [run_ga4_report], as on
    a call that the cache does not answer. *)
Definition funnel (clock : wall_clock) (lookback_days : Z) : M FunnelTable :=
  '(range_start, range_end) ← lift (funnel_date_range clock lookback_days);
  funnel_event_counts ←
    run_ga4_report py property_id ga4_backend
      funnel_metric_names range_start range_end
      funnel_dimension_names funnel_filter_specs;
  lift (funnel_table funnel_event_counts).

End Dashboard.

(* ================================================================== *)
(** * The derived columns, cell by cell, as the specification words them *)
(* ================================================================== *)

(** The baseline (stage 1) total is present and strictly positive. *)
Definition baseline_present_positive (Total : list float) : bool :=
  match Total !! 1 with
  | Some t => Float.notna t && Float.gt0 t
  | None => false
  end.

(** The baseline total is 0, absent, or undefined. *)
Definition baseline_zero_or_absent (Total : list float) : Prop :=
  match Total !! 1 with
  | Some t => Float.is_zero t = true \/ PrimFloat.is_nan t = true
  | None => True
  end.

(** Percentage of baseline: [total / baseline], as a percentage with two
    decimals. *)
Definition pct_cell (baseline_total total : float) : string :=
  Float.format_pct2 (PrimFloat.div total baseline_total).

(** The total of stage [i] is present: the stage exists and its total is
    not NaN. *)
Definition present (Total : list float) (i : nat) : bool :=
  match Total !! i with
  | Some t => Float.notna t
  | None => false
  end.

(** The total of stage [i] is strictly positive. *)
Definition positive (Total : list float) (i : nat) : bool :=
  match Total !! i with
  | Some t => Float.gt0 t
  | None => false
  end.

Definition total_at (Total : list float) (i : nat) : float :=
  default Float.nan (Total !! i).

(** [1 - stage[i+1].total / stage[i].total], as a percentage with two
    decimals. *)
Definition drop_rate_text (Total : list float) (i : nat) : string :=
  Float.format_pct2
    (Float.sub Float.one
       (PrimFloat.div (total_at Total (i + 1)) (total_at Total i))).

(** The transition from stage [i] to stage [i + 1] has a drop-off rate:
    the current total is present and positive and the next is present. *)
Definition transition_defined (Total : list float) (i : nat) : bool :=
  present Total i && positive Total i && present Total (i + 1).

Definition drop_cell (Total : list float) (i : nat) : string :=
  if transition_defined Total i then drop_rate_text Total i else SENTINEL.

(** Stage [i] is the source of an interior transition: [1 <= i <= n - 2]. *)
Definition interior (n i : nat) : bool := (1 <=? i)%nat && (i + 2 <=? n)%nat.

(** The drop-off column as the specification words it in isolation:
    interior transitions carry [drop_cell], stage 0 and the final stage
    the sentinel. *)
Definition drop_off_as_worded (Total : list float) (i : nat) : string :=
  if interior (length Total) i then drop_cell Total i else SENTINEL.

(** The drop-off column with the baseline guard of the code in front:
    nothing is computed unless the baseline total is present and positive. *)
Definition drop_off_guarded (Total : list float) (i : nat) : string :=
  if baseline_present_positive Total then drop_off_as_worded Total i
  else SENTINEL.

(** The range of a 64-bit integer, which is the range of an integer
    metric of the API. *)
Definition int64 (n : Z) : Prop := (- 2 ^ 63 <= n < 2 ^ 63)%Z.

(** The three counts the funnel reads from a mapping are in that range. *)
Definition counts_fit (d : gmap string Z) : Prop :=
  int64 (default 0%Z (d !! "page_view"))
  /\ int64 (default 0%Z (d !! "click_register"))
  /\ int64 (default 0%Z (d !! "discord_signin")).

(** The backend reports 64-bit counts: whenever the first metric value of
    a row it returns reads as an integer, the integer is in that range. *)
Definition reports_int64 (py : Python)
    (ga4_backend : RunReportRequest -> result RunReportResponse) : Prop :=
  forall request response row text n,
    ga4_backend request = Ok response ->
    row ∈ rows response ->
    head (metric_values row) = Some text ->
    int_of_str py text = Ok n ->
    int64 n.

(** The totals of the funnel built from a mapping of event counts. *)
Definition funnel_totals (d : gmap string Z) : list float :=
  Total_column
    (funnel_steps (default 0%Z (d !! "page_view"))
                  (default 0%Z (d !! "click_register"))
                  (default 0%Z (d !! "discord_signin"))).

(** The labels of the four stages. *)
Definition funnel_labels : list string :=
  [ "Social Media Impressions"; "Landing Page Visits"; "Clicked Register";
    "Signed in with Discord" ].

(** Sample reports used to exercise the statements below. *)
Definition example_counts : gmap string Z :=
  <["page_view" := 1000%Z]>
    (<["click_register" := 250%Z]> (<["discord_signin" := 40%Z]> ∅)).

Definition no_landing_counts : gmap string Z :=
  <["page_view" := 0%Z]>
    (<["click_register" := 250%Z]> (<["discord_signin" := 40%Z]> ∅)).

(** The world after the [except] branch has shown [e]. *)
Definition after_error (e : exn) (w : World) : World :=
  mkWorld (st_errors w ++ ["Error fetching from GA4: " ++ exn_str e])
    (ga4_requests w).

(** The world after [request] has been sent. *)
Definition after_request (request : RunReportRequest) (w : World) : World :=
  mkWorld (st_errors w) (ga4_requests w ++ [request]).

(** The request of the funnel for a date range, written out. *)
Definition funnel_request (property_id : string)
    (range_start range_end : datetime) : RunReportRequest :=
  {| property := "properties/" ++ property_id;
     metrics := [mkMetric "totalUsers"];
     date_ranges :=
       [mkDateRange (format_date range_start) (format_date range_end)];
     dimensions := Some [mkDimension "eventName"];
     dimension_filter :=
       Some (FE_filter
               (mkFilter "eventName"
                  (mkStringFilter "page_view|click_register|discord_signin"
                     FULL_REGEXP))) |}.

(** The table of a funnel whose three counts are 0. *)
Definition zero_funnel_table : FunnelTable :=
  {| Step := funnel_labels;
     Total := [SENTINEL; "0"; "0"; "0"];
     pct_of_Impressions := replicate 4 SENTINEL;
     Drop_off := replicate 4 SENTINEL |}.

(** [f] is the string filter of a triple: same field, same value, and the
    match type that the triple's mode names. *)
Definition filter_of_triple (py : Python) (spec : filter_spec) (f : Filter)
  : Prop :=
  match spec with
  | (field, text, mode) =>
      field_name f = field
      /\ value (string_filter f) = text
      /\ MatchType_getitem py (str_upper py mode)
         = Ok (match_type (string_filter f))
  end.

(** Two triples that are identical except for the letter case of the
    match mode. *)
Definition same_up_to_case (s t : filter_spec) : Prop :=
  match s, t with
  | (field1, text1, mode1), (field2, text2, mode2) =>
      field1 = field2 /\ text1 = text2 /\ Str.differ_only_in_case mode1 mode2
  end.

(** A backend that is down, and one that answers every request with one
    row holding the metric value 42. *)
Definition backend_down (request : RunReportRequest)
  : result RunReportResponse :=
  Err (GoogleAPICallError ServiceUnavailable "503 failed to connect").

Definition backend_one_row (request : RunReportRequest)
  : result RunReportResponse :=
  Ok (mkRunReportResponse [mkRow [] ["42"]]).

(** Noon of 2026-11-03 on the wall clock of the reference zone. *)
Definition sample_clock : wall_clock := mkWallClock 739923 12 0 0 0.

(* ================================================================== *)
(** * Further notions used to state what the code does *)
(* ================================================================== *)

(** What one turn of the loop of the dimensioned branch reads from a row:
    its first dimension value and the integer of its first metric value;
    a row short of either, or whose metric is no integer, raises. *)
Definition row_entry (py : Python) (row : Row) : result (string * Z) :=
  dimension_value ← head0 (dimension_values row);
  metric_text ← head0 (metric_values row);
  metric_value ← int_of_str py metric_text;
  mret (dimension_value, metric_value).

(** [result[dimension_value] = metric_value]. *)
Definition store_entry (d : gmap string Z) (entry : string * Z)
  : gmap string Z :=
  <[entry.1 := entry.2]> d.

(** The number a string of decimal digits denotes after the digits read
    so far amounted to [acc]. *)
Fixpoint uint_value (d : Decimal.uint) (acc : Z) : Z :=
  match d with
  | Decimal.Nil => acc
  | Decimal.D0 d' => uint_value d' (10 * acc)
  | Decimal.D1 d' => uint_value d' (10 * acc + 1)
  | Decimal.D2 d' => uint_value d' (10 * acc + 2)
  | Decimal.D3 d' => uint_value d' (10 * acc + 3)
  | Decimal.D4 d' => uint_value d' (10 * acc + 4)
  | Decimal.D5 d' => uint_value d' (10 * acc + 5)
  | Decimal.D6 d' => uint_value d' (10 * acc + 6)
  | Decimal.D7 d' => uint_value d' (10 * acc + 7)
  | Decimal.D8 d' => uint_value d' (10 * acc + 8)
  | Decimal.D9 d' => uint_value d' (10 * acc + 9)
  end%Z.

(** Every character of the string is a decimal digit. *)
Fixpoint all_digits (s : string) : bool :=
  match s with
  | EmptyString => true
  | String c s' => Str.is_digit c && all_digits s'
  end.

(** No character of the string is whitespace. *)
Fixpoint no_space (s : string) : bool :=
  match s with
  | EmptyString => true
  | String c s' => negb (Str.is_space c) && no_space s'
  end.

(** The percentage column, cell by cell: nothing but sentinels unless the
    baseline total is present and positive; then the sentinel for the
    placeholder and [stage[i].total / stage[1].total] for every other
    stage. *)
Definition pct_as_computed (Total : list float) (i : nat) : string :=
  if baseline_present_positive Total && (1 <=? i)%nat
  then pct_cell (total_at Total 1) (total_at Total i)
  else SENTINEL.

(** The day numbers from which a lookback can be subtracted. *)
Definition date_in_range (clock : wall_clock) (lookback_days : Z) : Prop :=
  (0 < clock_ordinal clock - (lookback_days - 1) <= Calendar.MAXORDINAL)%Z.

(** ** The calendar behind [datetime]

    A Python [datetime] holds a year, a month and a day; subtracting a
    [timedelta] turns them into a day number ([toordinal]), subtracts, and
    turns the result back ([fromordinal], [Calendar.ord2ymd] above). The
    first half of that trip: *)
Module Gregorian.
Local Open Scope Z_scope.

(** [year -> 1 if leap year, else 0]. *)
Definition is_leap (year : Z) : bool :=
  (year mod 4 =? 0) && (negb (year mod 100 =? 0) || (year mod 400 =? 0)).

(** Number of days before January 1st of [year]. *)
Definition days_before_year (year : Z) : Z :=
  let y := year - 1 in
  y * 365 + y / 4 - y / 100 + y / 400.

(** Number of days in that month in that year. *)
Definition days_in_month (year month : Z) : Z :=
  if (month =? 2) && is_leap year then 29 else Calendar.DAYS_IN_MONTH month.

(** Number of days in [year] before the first day of [month]. *)
Definition days_before_month (year month : Z) : Z :=
  Calendar.DAYS_BEFORE_MONTH month
  + Calendar.b2z ((2 <? month) && is_leap year).

(** [date(year, month, day).toordinal()]. *)
Definition ymd2ord (year month day : Z) : Z :=
  days_before_year year + days_before_month year month + day.

(** A date of the proleptic Gregorian calendar. *)
Definition valid_date (year month day : Z) : Prop :=
  1 <= year /\ 1 <= month <= 12 /\ 1 <= day <= days_in_month year month.

(** [check] holds of the [fuel] integers from [from] on. *)
Fixpoint all_from (check : Z -> bool) (from : Z) (fuel : nat) : bool :=
  match fuel with
  | O => true
  | S fuel' => check from && all_from check (from + 1) fuel'
  end.

End Gregorian.

Section MonthDay.
Local Open Scope Z_scope.

(** The last step of [Calendar.ord2ymd]: the month and the day of the
    [n]-th day (from 0) of a year. *)
Definition month_day (leapyear : bool) (n : Z) : Z * Z :=
  let month := Z.shiftr (n + 50) 5 in
  let preceding :=
    Calendar.DAYS_BEFORE_MONTH month
    + Calendar.b2z ((2 <? month) && leapyear) in
  if n <? preceding then
    let month := month - 1 in
    let preceding :=
      preceding
      - (Calendar.DAYS_IN_MONTH month
         + Calendar.b2z ((month =? 2) && leapyear)) in
    (month, n - preceding + 1)
  else (month, n - preceding + 1).

(** What is checked of each day of a year: its month and day are in
    range and count [n + 1] days from January 1st. *)
Definition check_month_day (leapyear : bool) (n : Z) : bool :=
  let '(m, d) := month_day leapyear n in
  (1 <=? m) && (m <=? 12) && (1 <=? d)
  && (d <=? Calendar.DAYS_IN_MONTH m + Calendar.b2z ((m =? 2) && leapyear))
  && (Calendar.DAYS_BEFORE_MONTH m + Calendar.b2z ((2 <? m) && leapyear) + d
      =? n + 1).

End MonthDay.

(* ================================================================== *)
(** * Thousands separators *)
(* ================================================================== *)

(** [f"{n:,}"] for an int, the format of the lifetime metric (line 154):
    the sign, then the decimal digits in groups of three separated by
    commas. *)
Definition format_int_comma (n : Z) : string :=
  let digits := Str.of_Z (Z.abs n) in
  (if (n <? 0)%Z then "-" else "")
  ++ Float.group3 (String.length digits) digits.

(** The text without its commas. *)
Fixpoint remove_commas (s : string) : string :=
  match s with
  | EmptyString => EmptyString
  | String c s' =>
      if Ascii.eqb c "," then remove_commas s' else String c (remove_commas s')
  end.

(** No character of the string is a comma. *)
Fixpoint no_comma (s : string) : bool :=
  match s with
  | EmptyString => true
  | String c s' => negb (Ascii.eqb c ",") && no_comma s'
  end.

(* ================================================================== *)
(** * The connection tester ([test_secrets.py]) *)
(* ================================================================== *)

Module Tester.

(** What the script puts on the screen, in order. *)
Inductive element : Type :=
  | Title (text : string)
  | Header (text : string)
  | Success (text : string)
  | Error (text : string)
  | Info (text : string)
  | Warning (text : string)
  | Code (text : string)
  | Markdown (text : string)
  | Balloons.

(** The exceptions the script tells apart: a secret that is not there,
    the API error of the Supabase client, a service-account blob that is
    no JSON, the two GA4 errors it names, and any other exception. *)
Inductive failure : Type :=
  | MissingSecret (name : string)
  | APIError (message details : string)
  | JSONDecodeError
  | PermissionDenied (message : string)
  | InvalidArgument (message : string)
  | Unexpected (text : string).

Inductive outcome (A : Type) : Type :=
  | Passed (a : A)
  | Raised (e : failure).
Arguments Passed {A} a.
Arguments Raised {A} e.

(** The names of the four secrets, in the order of the dict. *)
Definition SECRET_NAMES : list string :=
  [ "GA4_PROPERTY_ID"; "GA4_SERVICE_ACCOUNT_JSON"; "SUPABASE_URL";
    "SUPABASE_SERVICE_ROLE_KEY" ].

(** Truthiness of [st.secrets.get(name)]: there, and not empty. *)
Definition found (secret_value : option string) : bool :=
  match secret_value with
  | Some (String _ _) => true
  | _ => false
  end.

Definition newline : string := String (ascii_of_nat 10) EmptyString.

Section Script.

(** [st.secrets], with string values. *)
Variable secrets : gmap string string.

(** [str(e)] of an exception. *)
Variable failure_text : failure -> string.

(** Creating the Supabase client for a URL and a key and counting the
    rows of [profiles]: the count, or the exception. *)
Variable supabase_probe : string -> string -> outcome Z.

(** Parsing the service-account JSON, building the GA4 client for it and
    running the test report on a property: the number of rows, or the
    exception. *)
Variable ga4_probe : string -> string -> outcome nat.

(** [st.secrets[name]]. *)
Definition secret (name : string) : outcome string :=
  match secrets !! name with
  | Some v => Passed v
  | None => Raised (MissingSecret name)
  end.

(** The loop of [check_secrets] over the items of the dict. *)
Fixpoint check_loop (names : list string) (all_secrets_found : bool)
  : list element * bool :=
  match names with
  | [] => ([], all_secrets_found)
  | secret_name :: names' =>
      if found (secrets !! secret_name) then
        let '(shown, r) := check_loop names' all_secrets_found in
        (Success ("✅ Found `" ++ secret_name ++ "`") :: shown, r)
      else
        let '(shown, r) := check_loop names' false in
        (Error ("❌ `" ++ secret_name
                  ++ "` not found. Please set it in `.streamlit/secrets.toml`.")
           :: shown, r)
  end.

(** [check_secrets] (test_secrets.py, lines 11-28). *)
Definition check_secrets : list element * bool :=
  let '(shown, all_secrets_found) := check_loop SECRET_NAMES true in
  ([Header "1. Secrets Configuration Check"]
     ++ shown
     ++ [Info "Your secrets file should be located at `.streamlit/secrets.toml`"],
   all_secrets_found)%list.

(** The [try] block of [test_supabase_connection]. *)
Definition supabase_attempt : outcome Z :=
  match secret "SUPABASE_URL" with
  | Raised e => Raised e
  | Passed url =>
      match secret "SUPABASE_SERVICE_ROLE_KEY" with
      | Raised e => Raised e
      | Passed key => supabase_probe url key
      end
  end.

(** [test_supabase_connection] (lines 30-52). *)
Definition test_supabase_connection : list element * bool :=
  let header := Header "2. Supabase Connection Test" in
  match supabase_attempt with
  | Passed count =>
      ([header;
        Success "✅ Supabase connection successful.";
        Info ("Successfully fetched data. Found `" ++ Str.of_Z count
                ++ "` rows in `profiles` table.")],
       true)
  | Raised (APIError message details) =>
      ([header;
        Error "❌ Supabase API Error: Could not connect or query.";
        Code ("Error: " ++ message ++ newline ++ "Details: " ++ details);
        Warning "Common issues: Incorrect `SUPABASE_URL` or `SUPABASE_SERVICE_ROLE_KEY`. Ensure the `profiles` table exists."],
       false)
  | Raised e =>
      ([header;
        Error ("❌ An unexpected error occurred with Supabase: "
                 ++ failure_text e)],
       false)
  end.

(** The [try] block of [test_ga4_connection]. *)
Definition ga4_attempt : outcome nat :=
  match secret "GA4_PROPERTY_ID" with
  | Raised e => Raised e
  | Passed property_id =>
      match secret "GA4_SERVICE_ACCOUNT_JSON" with
      | Raised e => Raised e
      | Passed service_account_json_str =>
          ga4_probe property_id service_account_json_str
      end
  end.

(** [test_ga4_connection] (lines 54-96). *)
Definition test_ga4_connection : list element * bool :=
  let header := Header "3. GA4 Connection Test" in
  match ga4_attempt with
  | Passed n_rows =>
      ([header;
        Success "✅ GA4 connection successful.";
        Info ("Successfully ran a test report. Found `"
                ++ Str.of_Z (Z.of_nat n_rows) ++ "` rows of data.")],
       true)
  | Raised JSONDecodeError =>
      ([header;
        Error "❌ GA4 Error: `GA4_SERVICE_ACCOUNT_JSON` is not a valid JSON string.";
        Warning "Please ensure you've copied the entire service account JSON file content."],
       false)
  | Raised (PermissionDenied message) =>
      ([header;
        Error "❌ GA4 Permission Denied.";
        Code ("Error: " ++ message);
        Warning "Common issues: Service account email might not have 'Viewer' role in GA4 Property Access Management."],
       false)
  | Raised (InvalidArgument message) =>
      ([header;
        Error "❌ GA4 Invalid Argument.";
        Code ("Error: " ++ message);
        Warning "Common issue: `GA4_PROPERTY_ID` might be incorrect."],
       false)
  | Raised e =>
      ([header;
        Error ("❌ An unexpected error occurred with GA4: " ++ failure_text e)],
       false)
  end.

(** The script run as a program (lines 98-117); [secrets_file_exists] is
    [os.path.exists(".streamlit/secrets.toml")]. *)
Definition main (secrets_file_exists : bool) : list element :=
  let title := Title "Dashboard Connection Tester" in
  if negb secrets_file_exists then
    [title;
     Error "`.streamlit/secrets.toml` file not found.";
     Info "Please copy `.streamlit/secrets.toml.example` to `.streamlit/secrets.toml` and add your secrets."]
  else
    let '(shown_secrets, secrets_found) := check_secrets in
    if secrets_found then
      let '(shown_supabase, supabase_ok) := test_supabase_connection in
      let '(shown_ga4, ga4_ok) := test_ga4_connection in
      ([title] ++ shown_secrets
         ++ [Markdown "---"] ++ shown_supabase
         ++ [Markdown "---"] ++ shown_ga4
         ++ [Markdown "---"]
         ++ (if supabase_ok && ga4_ok
             then [Balloons;
                   Success "🎉 All connections are working correctly!"]
             else [Error "One or more connections failed. Please review the error messages above."]))%list
    else ([title] ++ shown_secrets)%list.

End Script.

(** The secrets the script asks for are all there and not empty. *)
Definition all_found (secrets : gmap string string) : Prop :=
  forall name, name ∈ SECRET_NAMES -> found (secrets !! name) = true.

Definition is_error (e : element) : bool :=
  match e with
  | Error _ => true
  | _ => false
  end.

(** How many of the four secrets are missing or empty. *)
Definition missing (secrets : gmap string string) : nat :=
  length (filter (fun name => found (secrets !! name) = false) SECRET_NAMES).

(** A full set of secrets, and two probes that pass. *)
Definition sample_secrets : gmap string string :=
  <["GA4_PROPERTY_ID" := "123"]>
    (<["GA4_SERVICE_ACCOUNT_JSON" := "{}"]>
       (<["SUPABASE_URL" := "https://db.example"]>
          (<["SUPABASE_SERVICE_ROLE_KEY" := "key"]> ∅))).

Definition probe_fine (url key : string) : outcome Z := Passed 7%Z.
Definition probe_rows (property_id json : string) : outcome nat := Passed 1.

End Tester.

Module TesterSpec.
Import Tester.

(** The line [check_secrets] shows for a secret. *)
Definition status (secrets : gmap string string) (name : string) : element :=
  if found (secrets !! name)
  then Success ("✅ Found `" ++ name ++ "`")
  else Error ("❌ `" ++ name
                ++ "` not found. Please set it in `.streamlit/secrets.toml`.").

Definition is_balloons (e : element) : bool :=
  match e with
  | Balloons => true
  | _ => false
  end.

End TesterSpec.

(* ================================================================== *)
(** * Properties *)
(* ================================================================== *)

(** ** The [result] monad *)

Lemma result_bind_Ok {A B : Type} (a : A) (k : A -> result B) :
  (Ok a ≫= k) = k a.
Proof. reflexivity. Qed.

(** ** Comparisons of floats with zero *)

Lemma Prim2SF_zero : FloatOps.Prim2SF Float.zero = SpecFloat.S754_zero false.
Proof. reflexivity. Qed.

Lemma gt0_not_zero (x : float) : Float.gt0 x = true -> Float.is_zero x = false.
Proof.
  unfold Float.gt0, Float.is_zero.
  rewrite FloatAxioms.ltb_spec, FloatAxioms.eqb_spec, Prim2SF_zero.
  unfold SpecFloat.SFltb, SpecFloat.SFeqb, SpecFloat.SFcompare.
  destruct (FloatOps.Prim2SF x) as [s|s| |s m e]; try destruct s; congruence.
Qed.

Lemma zero_not_gt0 (x : float) : Float.is_zero x = true -> Float.gt0 x = false.
Proof.
  intros Hz; destruct (Float.gt0 x) eqn:Hg; [|reflexivity].
  apply gt0_not_zero in Hg; congruence.
Qed.

Lemma truediv_positive (a b : float) :
  Float.gt0 b = true -> Float.truediv a b = Ok (PrimFloat.div a b).
Proof.
  intros Hb; unfold Float.truediv; rewrite (gt0_not_zero _ Hb); reflexivity.
Qed.

(** ** The formats and the calendar on sample values *)

Example format_pct2_quarter :
  Float.format_pct2 (PrimFloat.div (Float.of_Z 250) (Float.of_Z 1000))
  = "25.00%".
Proof. vm_compute; reflexivity. Qed.

Example format_pct2_two_thirds :
  Float.format_pct2 (PrimFloat.div (Float.of_Z 2) (Float.of_Z 3)) = "66.67%".
Proof. vm_compute; reflexivity. Qed.

Example format_comma0_millions :
  Float.format_comma0 (Float.of_Z 1234567) = "1,234,567".
Proof. vm_compute; reflexivity. Qed.

Example format_date_sample :
  format_date (datetime_now TIMEZONE sample_clock) = "2026-11-03".
Proof. vm_compute; reflexivity. Qed.

Example funnel_date_range_sample :
  funnel_date_range sample_clock 14
  ≫= (fun '(range_start, range_end) =>
        Ok (format_date range_start, format_date range_end))
  = Ok ("2026-10-21", "2026-11-03").
Proof. vm_compute; reflexivity. Qed.

Example py_int_sample : py_int " 1_000 " = Ok 1000%Z.
Proof. vm_compute; reflexivity. Qed.

(** The unit separator is no whitespace for [int]. *)
Example py_int_unit_separator :
  py_int ("12" ++ String (ascii_of_nat 31) EmptyString)
  = Err (ValueError
           ("invalid literal for int() with base 10: '12"
              ++ String Str.backslash "x1f'")).
Proof. vm_compute; reflexivity. Qed.

Example py_int_too_many_digits :
  py_int (Str.repeat "1" 4301) = Err (exceeds_limit 4301)
  /\ py_int (Str.repeat "1" 4300 ++ "x")
     = Err (invalid_literal (Str.repeat "1" 4300 ++ "x")).
Proof. split; vm_compute; reflexivity. Qed.

Example repr_sample :
  Str.repr "STARTS_WITH" = "'STARTS_WITH'"
  /\ Str.repr "it's"
     = String Str.double_quote ("it's" ++ String Str.double_quote EmptyString)
  /\ Str.repr (String (ascii_of_nat 10) "a")
     = "'" ++ String Str.backslash "na'".
Proof. repeat split; vm_compute; reflexivity. Qed.

(** ** List lookups *)

Lemma lookup_map {A B : Type} (f : A -> B) (l : list A) (i : nat) :
  map f l !! i = option_map f (l !! i).
Proof.
  revert i; induction l as [|a l IH]; intros [|i]; simpl; auto.
Qed.

Lemma iloc_Some (column : list float) (i : nat) (x : float) :
  column !! i = Some x -> iloc column i = Ok x.
Proof. intros H; unfold iloc; rewrite H; reflexivity. Qed.

Lemma set_column_Ok (n : nat) (values : list string) :
  length values = n -> set_column n values = Ok values.
Proof.
  intros H; unfold set_column.
  rewrite (proj2 (Nat.eqb_eq _ _) H); reflexivity.
Qed.

(** ** The two loops of the derived columns *)

Lemma percentages_loop_eq (baseline_total : float) (totals : list float) :
  Float.gt0 baseline_total = true ->
  forall percentages,
    percentages_loop baseline_total totals percentages
    = Ok (percentages ++ map (pct_cell baseline_total) totals)%list.
Proof.
  intros Hb; induction totals as [|t totals IH]; intros acc; simpl.
  - rewrite app_nil_r; reflexivity.
  - rewrite (truediv_positive _ _ Hb), result_bind_Ok, IH, <- app_assoc.
    reflexivity.
Qed.

Lemma drop_offs_loop_eq (Total : list float) (range : list nat) :
  Forall (fun i => i + 1 < length Total) range ->
  forall drop_offs,
    drop_offs_loop Total range drop_offs
    = Ok (drop_offs ++ map (drop_cell Total) range)%list.
Proof.
  induction 1 as [|i range Hi _ IH]; intros acc; simpl.
  - rewrite app_nil_r; reflexivity.
  - destruct (lookup_lt_is_Some_2 Total i) as [current Hc]; [lia|].
    destruct (lookup_lt_is_Some_2 Total (i + 1)) as [next_val Hn]; [lia|].
    rewrite (iloc_Some _ _ _ Hc), result_bind_Ok.
    rewrite (iloc_Some _ _ _ Hn), result_bind_Ok.
    unfold drop_cell, transition_defined, drop_rate_text, present, positive,
      total_at; rewrite Hc, Hn; simpl.
    destruct (Float.notna current) eqn:E1; simpl;
      [destruct (Float.gt0 current) eqn:E2; simpl;
        [destruct (Float.notna next_val) eqn:E3; simpl|]|];
      try (rewrite IH, <- app_assoc; reflexivity).
    rewrite (truediv_positive _ _ E2), result_bind_Ok, IH, <- app_assoc.
    reflexivity.
Qed.

Lemma baseline_guard_eq (Total : list float) :
  baseline_guard Total = Ok (baseline_present_positive Total).
Proof.
  unfold baseline_guard, baseline_present_positive, iloc.
  destruct (1 <? length Total)%nat eqn:Hlen.
  - apply Nat.ltb_lt in Hlen.
    destruct (lookup_lt_is_Some_2 Total 1 Hlen) as [t Ht]; rewrite Ht; simpl.
    destruct (Float.notna t); reflexivity.
  - apply Nat.ltb_ge in Hlen.
    rewrite (lookup_ge_None_2 Total 1) by lia; reflexivity.
Qed.

(** The derived columns in closed form: the code never raises, and each
    column is the sentinel followed by its computed cells. *)
Lemma derived_columns_eq (Total : list float) :
  derived_columns Total
  = Ok (if baseline_present_positive Total
        then (SENTINEL
                :: map (pct_cell (default Float.nan (Total !! 1))) (drop 1 Total),
              SENTINEL
                :: map (drop_cell Total) (seq 1 (length Total - 2))
                ++ [SENTINEL])%list
        else (replicate (length Total) SENTINEL,
              replicate (length Total) SENTINEL)).
Proof.
  unfold derived_columns.
  rewrite baseline_guard_eq, result_bind_Ok.
  destruct (baseline_present_positive Total) eqn:Hg; [|reflexivity].
  unfold baseline_present_positive in Hg.
  destruct (Total !! 1) as [t|] eqn:Ht; [|discriminate].
  apply andb_true_iff in Hg as [_ Hpos].
  assert (Hlen : 1 < length Total) by (eapply lookup_lt_Some; eauto).
  rewrite (iloc_Some _ _ _ Ht), result_bind_Ok.
  rewrite (percentages_loop_eq _ _ Hpos), result_bind_Ok.
  rewrite set_column_Ok, result_bind_Ok
    by (simpl; rewrite length_map, length_drop; lia).
  rewrite drop_offs_loop_eq
    by (apply Forall_forall; intros i Hi; apply elem_of_seq in Hi; lia).
  rewrite result_bind_Ok.
  replace (length Total - 1 - 1) with (length Total - 2) by lia.
  rewrite set_column_Ok, result_bind_Ok
    by (rewrite !length_app, length_map, length_seq; simpl; lia).
  reflexivity.
Qed.

(** ** The funnel table *)

Lemma funnel_table_RDict (d : gmap string Z) :
  funnel_table (RDict d)
  = ('(pct_column, drop_column) ← derived_columns (funnel_totals d);
     mret (mkFunnelTable funnel_labels (map render_total (funnel_totals d))
             pct_column drop_column)).
Proof. reflexivity. Qed.

Lemma format_pct2_not_sentinel (x : float) : Float.format_pct2 x ≠ SENTINEL.
Proof.
  unfold Float.format_pct2.
  generalize (Float.format_f false 2 (PrimFloat.mul x Float.hundred)).
  intros [|a [|b [|c s]]]; simpl; try discriminate.
  destruct s; discriminate.
Qed.

(** C1. With counts page_view = 1000, click_register = 250 and
    discord_signin = 40 the funnel shows 25.00% and 4.00% of baseline for
    "Clicked Register" and "Signed in with Discord", drop-offs of 75.00%
    and 84.00% for the two transitions, and the sentinel for the final
    stage's drop-off and for both derived cells of the placeholder. *)
Theorem C1_funnel_example (d : gmap string Z)
    (Hpv : d !! "page_view" = Some 1000%Z)
    (Hrc : d !! "click_register" = Some 250%Z)
    (Hds : d !! "discord_signin" = Some 40%Z) :
  funnel_table (RDict d)
  = Ok {| Step := funnel_labels;
          Total := [SENTINEL; "1,000"; "250"; "40"];
          pct_of_Impressions := [SENTINEL; "100.00%"; "25.00%"; "4.00%"];
          Drop_off := [SENTINEL; "75.00%"; "84.00%"; SENTINEL] |}.
Proof.
  rewrite funnel_table_RDict; unfold funnel_totals.
  rewrite Hpv, Hrc, Hds.
  vm_compute; reflexivity.
Qed.

Lemma C1_funnel_example_witness :
  funnel_table (RDict example_counts)
  = Ok {| Step := funnel_labels;
          Total := [SENTINEL; "1,000"; "250"; "40"];
          pct_of_Impressions := [SENTINEL; "100.00%"; "25.00%"; "4.00%"];
          Drop_off := [SENTINEL; "75.00%"; "84.00%"; SENTINEL] |}.
Proof. apply C1_funnel_example; vm_compute; reflexivity. Defined.

Lemma baseline_zero_or_absent_guard (Total : list float) :
  baseline_zero_or_absent Total -> baseline_present_positive Total = false.
Proof.
  unfold baseline_zero_or_absent, baseline_present_positive.
  destruct (Total !! 1) as [t|]; [|reflexivity].
  intros [Hz|Hn].
  - rewrite (zero_not_gt0 _ Hz); apply andb_false_r.
  - unfold Float.notna; rewrite Hn; reflexivity.
Qed.

(** C2. When the baseline total (stage 1) is 0, absent or undefined, every
    cell of the percentage and drop-off columns is the sentinel, whatever
    the other totals are, and the computation ends normally: no division
    by zero is reached, here or on any other column of totals. So it is
    for the funnel of every mapping of 64-bit counts in which the count
    of page views is 0 or missing. *)
Theorem C2_baseline_zero_all_sentinel :
  (forall Total : list float,
      baseline_zero_or_absent Total ->
      derived_columns Total
      = Ok (replicate (length Total) SENTINEL,
            replicate (length Total) SENTINEL))
  /\ (forall d : gmap string Z,
         default 0%Z (d !! "page_view") = 0%Z ->
         counts_fit d ->
         exists totals,
           funnel_table (RDict d)
           = Ok (mkFunnelTable funnel_labels totals
                   (replicate 4 SENTINEL) (replicate 4 SENTINEL)))
  /\ (forall Total : list float,
         derived_columns Total ≠ Err ZeroDivisionError).
Proof.
  split; [|split].
  - intros Total H.
    rewrite derived_columns_eq, (baseline_zero_or_absent_guard _ H).
    reflexivity.
  - intros d Hpv _.
    exists (map render_total (funnel_totals d)).
    rewrite funnel_table_RDict, derived_columns_eq.
    rewrite baseline_zero_or_absent_guard; [reflexivity|].
    unfold baseline_zero_or_absent, funnel_totals; rewrite Hpv; simpl.
    left; reflexivity.
  - intros Total; rewrite derived_columns_eq; discriminate.
Qed.

Lemma C2_baseline_zero_all_sentinel_witness :
  derived_columns [Float.nan; Float.zero; Float.of_Z 250; Float.of_Z 40]
  = Ok (replicate 4 SENTINEL, replicate 4 SENTINEL)
  /\ exists totals,
       funnel_table (RDict no_landing_counts)
       = Ok (mkFunnelTable funnel_labels totals
               (replicate 4 SENTINEL) (replicate 4 SENTINEL)).
Proof.
  split.
  - apply (proj1 C2_baseline_zero_all_sentinel
             [Float.nan; Float.zero; Float.of_Z 250; Float.of_Z 40]).
    left; reflexivity.
  - apply (proj1 (proj2 C2_baseline_zero_all_sentinel) no_landing_counts).
    + vm_compute; reflexivity.
    + unfold counts_fit, int64; vm_compute; intuition discriminate.
Defined.

Lemma drop_column_lookup (Total : list float) (i : nat) :
  2 <= length Total ->
  i < length Total ->
  (SENTINEL :: map (drop_cell Total) (seq 1 (length Total - 2)) ++ [SENTINEL])
    !! i
  = Some (drop_off_as_worded Total i).
Proof.
  intros Hn Hi; unfold drop_off_as_worded, interior.
  destruct i as [|j]; [reflexivity|].
  change ((SENTINEL :: ?l) !! S j) with (l !! j).
  destruct (decide (j < length Total - 2)) as [Hj|Hj].
  - rewrite lookup_app_l by (rewrite length_map, length_seq; lia).
    rewrite lookup_map, lookup_seq_lt by lia.
    replace (S j + 2 <=? length Total)%nat with true
      by (symmetry; apply Nat.leb_le; lia).
    reflexivity.
  - rewrite lookup_app_r by (rewrite length_map, length_seq; lia).
    rewrite length_map, length_seq.
    replace (j - (length Total - 2)) with 0 by lia.
    replace (S j + 2 <=? length Total)%nat with false
      by (symmetry; apply Nat.leb_gt; lia).
    reflexivity.
Qed.

Lemma derived_columns_drop_off (Total : list float) :
  exists pct_column drop_column,
    derived_columns Total = Ok (pct_column, drop_column)
    /\ length drop_column = length Total
    /\ forall i, i < length Total ->
                 drop_column !! i = Some (drop_off_guarded Total i).
Proof.
  rewrite derived_columns_eq; unfold drop_off_guarded.
  destruct (baseline_present_positive Total) eqn:Hg.
  - assert (Hn : 2 <= length Total).
    { unfold baseline_present_positive in Hg.
      destruct (Total !! 1) as [t|] eqn:Ht; [|discriminate].
      apply lookup_lt_Some in Ht; lia. }
    eexists _, _; split; [reflexivity|]; split.
    + simpl; rewrite length_app, length_map, length_seq; simpl; lia.
    + intros i Hi; apply drop_column_lookup; assumption.
  - eexists _, _; split; [reflexivity|]; split.
    + apply length_replicate.
    + intros i Hi; apply lookup_replicate_2; assumption.
Qed.

(** C8, as the code has it. The drop-off column is computed only once the
    baseline total (stage 1) is present and positive; then the cell of an
    interior stage [i], [1 <= i <= n - 2], is
    [1 - stage[i+1].total / stage[i].total] as a percentage with two
    decimals exactly when the total of stage [i] is present and positive
    and that of stage [i + 1] is present, and the sentinel otherwise;
    stage 0 and the final stage carry the sentinel. When the baseline
    total is zero or absent every cell is the sentinel. A computed rate is
    never rendered as the sentinel. So it is in the table of the funnel of
    every mapping of 64-bit counts. *)
Theorem C8_drop_off_guarded :
  (forall Total : list float,
      exists pct_column drop_column,
        derived_columns Total = Ok (pct_column, drop_column)
        /\ length drop_column = length Total
        /\ forall i, i < length Total ->
                     drop_column !! i = Some (drop_off_guarded Total i))
  /\ (forall d : gmap string Z,
         counts_fit d ->
         exists table,
           funnel_table (RDict d) = Ok table
           /\ forall i, i < 4 ->
                Drop_off table !! i
                = Some (drop_off_guarded (funnel_totals d) i))
  /\ (forall (Total : list float) (i : nat),
         drop_rate_text Total i ≠ SENTINEL).
Proof.
  split; [|split].
  - exact derived_columns_drop_off.
  - intros d _.
    destruct (derived_columns_drop_off (funnel_totals d))
      as (pct_column & drop_column & Heq & _ & Hcells).
    eexists; rewrite funnel_table_RDict, Heq; split; [reflexivity|].
    exact Hcells.
  - intros Total i; apply format_pct2_not_sentinel.
Qed.

(** C8, as worded, fails: with page_view = 0, click_register = 250 and
    discord_signin = 40 the transition out of "Clicked Register" has a
    positive current total and a present next total, yet its drop-off cell
    is the sentinel and not 84.00%. *)
Lemma C8_drop_off_unguarded_counterexample :
  ~ (forall (d : gmap string Z) (table : FunnelTable),
        counts_fit d ->
        funnel_table (RDict d) = Ok table ->
        forall i, i < 4 ->
          Drop_off table !! i = Some (drop_off_as_worded (funnel_totals d) i)).
Proof.
  intros H.
  assert (Hfit : counts_fit no_landing_counts)
    by (unfold counts_fit, int64; vm_compute; intuition discriminate).
  assert (E : funnel_table (RDict no_landing_counts)
              = Ok {| Step := funnel_labels;
                      Total := [SENTINEL; "0"; "250"; "40"];
                      pct_of_Impressions := replicate 4 SENTINEL;
                      Drop_off := replicate 4 SENTINEL |})
    by (vm_compute; reflexivity).
  specialize (H _ _ Hfit E 2 ltac:(lia)).
  vm_compute in H; discriminate H.
Qed.

Lemma C8_drop_off_guarded_witness :
  counts_fit example_counts
  /\ exists table,
       funnel_table (RDict example_counts) = Ok table
       /\ Drop_off table !! 1 = Some "75.00%"
       /\ Drop_off table !! 2 = Some "84.00%"
       /\ Drop_off table !! 3 = Some SENTINEL.
Proof.
  assert (Hfit : counts_fit example_counts)
    by (unfold counts_fit, int64; vm_compute; intuition discriminate).
  split; [exact Hfit|].
  destruct (proj1 (proj2 C8_drop_off_guarded) example_counts Hfit)
    as (table & Heq & Hcells).
  exists table; split; [exact Heq|].
  rewrite (Hcells 1), (Hcells 2), (Hcells 3) by lia.
  repeat split; vm_compute; reflexivity.
Defined.

(** ** Lookups in a dimensioned report *)

Lemma rows_to_dict_lookup_absent (py : Python) (rows : list Row)
    (event_name : string) :
  (forall row, row ∈ rows -> head (dimension_values row) ≠ Some event_name) ->
  forall acc d,
    rows_to_dict py rows acc = Ok d -> d !! event_name = acc !! event_name.
Proof.
  induction rows as [|row rows IH]; intros Habs acc d; simpl.
  - intros [= <-]; reflexivity.
  - assert (Hrow := Habs row (list_elem_of_here _ _)).
    destruct (dimension_values row) as [|dv dvs]; simpl; [discriminate|].
    destruct (metric_values row) as [|mv mvs]; simpl; [discriminate|].
    destruct (int_of_str py mv) as [n|e]; simpl; [|discriminate].
    intros Hd; rewrite (IH (fun r Hr => Habs r (list_elem_of_further _ _ _ Hr)) _ _ Hd).
    apply lookup_insert_ne; intros ->; apply Hrow; reflexivity.
Qed.

(** C9. Looking up an event name that a dimensioned report does not hold
    yields 0 and no missing-key failure, in particular for a name that no
    returned row carries. The funnel reads its three counts so: a mapping
    that lacks one of the three events gives the table of the mapping
    that holds it with the count 0, and a mapping of 64-bit counts always
    gives a table, whose totals are the three counts read with the
    default 0. *)
Theorem C9_absent_event_counts_zero (py : Python) :
  (forall (d : gmap string Z) (event_name : string),
      d !! event_name = None ->
      dict_get (RDict d) event_name 0 = Ok 0%Z)
  /\ (forall (response_rows : list Row) (d : gmap string Z)
             (event_name : string),
         rows_to_dict py response_rows ∅ = Ok d ->
         (forall row, row ∈ response_rows ->
                      head (dimension_values row) ≠ Some event_name) ->
         dict_get (RDict d) event_name 0 = Ok 0%Z)
  /\ (forall (d : gmap string Z) (event_name : string),
         event_name ∈ ["page_view"; "click_register"; "discord_signin"] ->
         d !! event_name = None ->
         funnel_table (RDict d)
         = funnel_table (RDict (<[event_name := 0%Z]> d)))
  /\ (forall d : gmap string Z,
         counts_fit d ->
         exists table,
           funnel_table (RDict d) = Ok table
           /\ Total table
              = map render_total
                  [ Float.nan;
                    Float.of_Z (default 0%Z (d !! "page_view"));
                    Float.of_Z (default 0%Z (d !! "click_register"));
                    Float.of_Z (default 0%Z (d !! "discord_signin")) ]).
Proof.
  split; [|split; [|split]].
  - intros d event_name H; unfold dict_get; rewrite H; reflexivity.
  - intros response_rows d event_name Hd Habs; unfold dict_get.
    rewrite (rows_to_dict_lookup_absent _ _ _ Habs _ _ Hd), lookup_empty.
    reflexivity.
  - intros d event_name Hin Habs.
    rewrite !funnel_table_RDict; unfold funnel_totals.
    assert (Hget : forall key,
               default 0%Z (<[event_name := 0%Z]> d !! key)
               = default 0%Z (d !! key)).
    { intros key; destruct (decide (event_name = key)) as [<-|Hne].
      - rewrite lookup_insert_eq, Habs; reflexivity.
      - rewrite lookup_insert_ne by exact Hne; reflexivity. }
    rewrite !Hget; reflexivity.
  - intros d _.
    destruct (derived_columns_drop_off (funnel_totals d))
      as (pct_column & drop_column & Heq & _).
    eexists; rewrite funnel_table_RDict, Heq; split; reflexivity.
Qed.

Lemma C9_absent_event_counts_zero_witness :
  dict_get (RDict example_counts) "sign_up" 0 = Ok 0%Z
  /\ dict_get (RDict (<["page_view" := 12%Z]> ∅)) "discord_signin" 0 = Ok 0%Z
  /\ funnel_table (RDict (<["page_view" := 12%Z]> ∅))
     = funnel_table
         (RDict (<["discord_signin" := 0%Z]> (<["page_view" := 12%Z]> ∅)))
  /\ exists table,
       funnel_table (RDict (<["page_view" := 12%Z]> ∅)) = Ok table
       /\ Total table = [SENTINEL; "12"; "0"; "0"].
Proof.
  split; [|split; [|split]].
  - apply (proj1 (C9_absent_event_counts_zero ascii_python));
      vm_compute; reflexivity.
  - apply (proj1 (proj2 (C9_absent_event_counts_zero ascii_python))
             [mkRow ["page_view"] ["12"]]).
    + vm_compute; reflexivity.
    + intros row Hrow; apply list_elem_of_singleton in Hrow; subst row.
      simpl; discriminate.
  - apply (proj1 (proj2 (proj2 (C9_absent_event_counts_zero ascii_python)))).
    + apply list_elem_of_further, list_elem_of_further, list_elem_of_here.
    + vm_compute; reflexivity.
  - destruct (proj2 (proj2 (proj2 (C9_absent_event_counts_zero ascii_python)))
                (<["page_view" := 12%Z]> ∅)) as (table & Heq & Htotal).
    + unfold counts_fit, int64; vm_compute; intuition discriminate.
    + exists table; split; [exact Heq|].
      rewrite Htotal; vm_compute; reflexivity.
Defined.

(** ** [run_ga4_report], case by case *)

Section ReportFacts.

Variable py : Python.
Variable property_id : string.
Variable ga4_backend : RunReportRequest -> result RunReportResponse.

Let run := run_ga4_report py property_id ga4_backend.
Let build := build_request py property_id.

Lemma run_ga4_report_eq metric_names start_date end_date dimension_names
    filter_specs (w : World) :
  run metric_names start_date end_date dimension_names filter_specs w
  = match build metric_names start_date end_date dimension_names
            filter_specs with
    | Err e => (Ok (safe_default dimension_names), after_error e w)
    | Ok request =>
        match ga4_backend request
              ≫= shape_response py (dimensions request) with
        | Ok r => (Ok r, after_request request w)
        | Err e =>
            (Ok (safe_default dimension_names),
             after_error e (after_request request w))
        end
    end.
Proof.
  unfold run, build, run_ga4_report, try_except, lift, ga4_run_report,
    st_error, after_error, after_request.
  unfold mbind at 1 2 3, M_bind, mret, M_ret.
  destruct (build_request _ _ _ _ _ _) as [request|e]; simpl; [|reflexivity].
  destruct (ga4_backend request) as [response|e]; simpl; [|reflexivity].
  destruct (shape_response _ _ response) as [r|e]; reflexivity.
Qed.

Lemma build_request_dimensions metric_names start_date end_date
    dimension_names filter_specs request :
  build metric_names start_date end_date dimension_names filter_specs
  = Ok request ->
  dimensions request
  = if truthy dimension_names
    then Some (map mkDimension (default [] dimension_names))
    else None.
Proof.
  unfold build, build_request.
  destruct (build_filter_expression py filter_specs) as [fe|e]; simpl;
    [|discriminate].
  intros [= <-]; reflexivity.
Qed.

Lemma build_request_filter metric_names start_date end_date
    dimension_names filter_specs fe :
  build_filter_expression py filter_specs = Ok fe ->
  exists request,
    build metric_names start_date end_date dimension_names filter_specs
    = Ok request
    /\ dimension_filter request = fe.
Proof.
  intros H; unfold build, build_request; rewrite H; simpl.
  eexists; split; reflexivity.
Qed.

Lemma run_ga4_report_requests metric_names start_date end_date
    dimension_names filter_specs request (w : World) :
  build metric_names start_date end_date dimension_names filter_specs
  = Ok request ->
  ga4_requests
    (snd (run metric_names start_date end_date dimension_names
            filter_specs w))
  = (ga4_requests w ++ [request])%list.
Proof.
  intros H; rewrite run_ga4_report_eq, H.
  destruct (ga4_backend request ≫= shape_response py (dimensions request));
    reflexivity.
Qed.

End ReportFacts.

(** ** The funnel as a whole *)

Lemma funnel_eq py property_id ga4_backend clock lookback_days (w : World) :
  funnel py property_id ga4_backend clock lookback_days w
  = match funnel_date_range clock lookback_days with
    | Err e => (Err e, w)
    | Ok (range_start, range_end) =>
        match run_ga4_report py property_id ga4_backend funnel_metric_names
                range_start range_end funnel_dimension_names
                funnel_filter_specs w with
        | (Ok counts, w') => (funnel_table counts, w')
        | (Err e, w') => (Err e, w')
        end
    end.
Proof.
  unfold funnel, lift; unfold mbind at 1 2, M_bind.
  destruct (funnel_date_range clock lookback_days) as [[rs re]|e]; reflexivity.
Qed.

Lemma funnel_build_request py property_id range_start range_end :
  build_request py property_id funnel_metric_names range_start range_end
    funnel_dimension_names funnel_filter_specs
  = Ok (funnel_request property_id range_start range_end).
Proof.
  unfold build_request, build_filter_expression, funnel_filter_specs.
  cbn [truthy default id mapM mbind mret result_bind result_ret].
  unfold build_filter at 1.
  rewrite (str_upper_ascii py "FULL_REGEXP" eq_refl); reflexivity.
Qed.

(** C3. [run_ga4_report] never raises; when the backend call fails, with
    whatever error, it shows the error and returns the safe default, 0
    without dimension names and the empty mapping with them; and the
    funnel built from a failed call is the four-stage table whose three
    GA4 totals are 0. *)
Theorem C3_backend_failure_safe_default
    (py : Python) (property_id : string)
    (ga4_backend : RunReportRequest -> result RunReportResponse) :
  (forall metric_names start_date end_date dimension_names filter_specs w,
      exists r w',
        run_ga4_report py property_id ga4_backend metric_names start_date
          end_date dimension_names filter_specs w = (Ok r, w'))
  /\ (forall metric_names start_date end_date dimension_names filter_specs w
             request e,
         build_request py property_id metric_names start_date end_date
           dimension_names filter_specs = Ok request ->
         ga4_backend request = Err e ->
         run_ga4_report py property_id ga4_backend metric_names start_date
           end_date dimension_names filter_specs w
         = (Ok (safe_default dimension_names),
            after_error e (after_request request w)))
  /\ (safe_default None = RInt 0
      /\ safe_default (Some []) = RInt 0
      /\ forall name names, safe_default (Some (name :: names)) = RDict ∅)
  /\ (forall clock lookback_days w range_start range_end e,
         funnel_date_range clock lookback_days = Ok (range_start, range_end) ->
         ga4_backend (funnel_request property_id range_start range_end)
         = Err e ->
         funnel py property_id ga4_backend clock lookback_days w
         = (Ok zero_funnel_table,
            after_error e
              (after_request
                 (funnel_request property_id range_start range_end) w))).
Proof.
  repeat split.
  - intros; rewrite run_ga4_report_eq.
    destruct (build_request _ _ _ _ _ _) as [request|e]; [|eauto].
    destruct (ga4_backend request ≫= _); eauto.
  - intros * Hreq Hfail; rewrite run_ga4_report_eq, Hreq, Hfail; reflexivity.
  - intros * Hrange Hfail.
    rewrite funnel_eq, Hrange, run_ga4_report_eq, funnel_build_request, Hfail.
    reflexivity.
Qed.

Lemma C3_backend_failure_safe_default_witness :
  run_ga4_report ascii_python "123" backend_down ["totalUsers"]
    (datetime_now TIMEZONE sample_clock) (datetime_now TIMEZONE sample_clock)
    None None (mkWorld [] [])
  = (Ok (RInt 0),
     mkWorld ["Error fetching from GA4: 503 failed to connect"]
       [mkRunReportRequest "properties/123" [mkMetric "totalUsers"]
          [mkDateRange "2026-11-03" "2026-11-03"] None None]).
Proof.
  apply (proj1 (proj2 (C3_backend_failure_safe_default ascii_python "123" backend_down))
           ["totalUsers"] (datetime_now TIMEZONE sample_clock)
           (datetime_now TIMEZONE sample_clock) None None (mkWorld [] [])
           (mkRunReportRequest "properties/123" [mkMetric "totalUsers"]
              [mkDateRange "2026-11-03" "2026-11-03"] None None)
           (GoogleAPICallError ServiceUnavailable "503 failed to connect"));
    reflexivity.
Defined.

(** C4. Without dimension names, a call whose backend request succeeds
    returns 0 when the response has no rows, and otherwise the integer
    value of the first metric of the first row, as [int] reads it. *)
Theorem C4_undimensioned_first_metric
    (py : Python) (property_id : string)
    (ga4_backend : RunReportRequest -> result RunReportResponse)
    metric_names start_date end_date dimension_names filter_specs
    (w : World) (request : RunReportRequest) (response : RunReportResponse)
    (Hnodim : truthy dimension_names = false)
    (Hreq : build_request py property_id metric_names start_date end_date
              dimension_names filter_specs = Ok request)
    (Hresp : ga4_backend request = Ok response) :
  (rows response = [] ->
   run_ga4_report py property_id ga4_backend metric_names start_date end_date
     dimension_names filter_specs w
   = (Ok (RInt 0), after_request request w))
  /\ (forall row rest text texts n,
         rows response = row :: rest ->
         metric_values row = text :: texts ->
         int_of_str py text = Ok n ->
         run_ga4_report py property_id ga4_backend metric_names start_date
           end_date dimension_names filter_specs w
         = (Ok (RInt n), after_request request w)).
Proof.
  pose proof (build_request_dimensions _ _ _ _ _ _ _ _ Hreq) as Hdim.
  rewrite Hnodim in Hdim.
  split.
  - intros Hrows.
    rewrite run_ga4_report_eq, Hreq, Hresp, Hdim; simpl.
    unfold shape_response; simpl; rewrite Hrows; reflexivity.
  - intros row rest text texts n Hrows Hmv Hint.
    rewrite run_ga4_report_eq, Hreq, Hresp, Hdim; simpl.
    unfold shape_response; simpl; rewrite Hrows; simpl.
    rewrite Hmv; simpl; rewrite Hint; reflexivity.
Qed.

Lemma C4_undimensioned_first_metric_witness :
  run_ga4_report ascii_python "123" backend_one_row ["totalUsers"]
    (datetime_now TIMEZONE sample_clock) (datetime_now TIMEZONE sample_clock)
    None None (mkWorld [] [])
  = (Ok (RInt 42),
     after_request
       (mkRunReportRequest "properties/123" [mkMetric "totalUsers"]
          [mkDateRange "2026-11-03" "2026-11-03"] None None)
       (mkWorld [] [])).
Proof.
  eapply (proj2 (C4_undimensioned_first_metric ascii_python "123" backend_one_row
                   ["totalUsers"] (datetime_now TIMEZONE sample_clock)
                   (datetime_now TIMEZONE sample_clock) None None
                   (mkWorld [] []) _ (mkRunReportResponse [mkRow [] ["42"]])
                   eq_refl eq_refl eq_refl)
            (mkRow [] ["42"]) [] "42" [] 42%Z);
    reflexivity.
Defined.

(** ** Filters *)

Lemma build_filter_of_triple (py : Python) (spec : filter_spec) (f : Filter) :
  filter_of_triple py spec f -> build_filter py spec = Ok f.
Proof.
  destruct spec as [[field text] mode], f as [fn [fv mt]]; simpl.
  intros (-> & -> & Hmode); unfold build_filter; rewrite Hmode; reflexivity.
Qed.

Lemma mapM_build_filter (py : Python) (specs : list filter_spec)
    (filters : list Filter) :
  Forall2 (filter_of_triple py) specs filters ->
  mapM (build_filter py) specs = Ok filters.
Proof.
  induction 1 as [|spec f specs filters Hf _ IH]; [reflexivity|].
  simpl; rewrite (build_filter_of_triple _ _ _ Hf); simpl; rewrite IH.
  reflexivity.
Qed.

(** C5. With two or more filter triples the dimension filter of the
    request is the AND-group of the triples' string filters, in order;
    with exactly one triple it is that filter itself, not a group. The
    request so built is the one sent to the backend. *)
Theorem C5_filters_anded_or_unwrapped
    (py : Python) (property_id : string)
    (ga4_backend : RunReportRequest -> result RunReportResponse)
    metric_names start_date end_date dimension_names
    (specs : list filter_spec) (filters : list Filter) (w : World)
    (Hfilters : Forall2 (filter_of_triple py) specs filters) :
  exists request,
    build_request py property_id metric_names start_date end_date
      dimension_names (Some specs) = Ok request
    /\ ga4_requests
         (snd (run_ga4_report py property_id ga4_backend metric_names start_date
                 end_date dimension_names (Some specs) w))
       = (ga4_requests w ++ [request])%list
    /\ (2 <= length specs ->
        dimension_filter request
        = Some (FE_and_group (map FE_filter filters)))
    /\ (forall f, filters = [f] ->
                  dimension_filter request = Some (FE_filter f)).
Proof.
  pose proof (mapM_build_filter _ _ _ Hfilters) as HmapM.
  pose proof (Forall2_length _ _ _ Hfilters) as Hlen.
  destruct (build_request_filter py property_id metric_names start_date end_date
              dimension_names (Some specs)
              (match filters with
               | [] => None
               | [f] => Some (FE_filter f)
               | _ => Some (FE_and_group (map FE_filter filters))
               end)) as (request & Hreq & Hfe).
  { unfold build_filter_expression.
    destruct specs as [|spec specs]; simpl in *.
    - destruct filters; [reflexivity|discriminate].
    - change (option_ret _ (spec :: specs)) with (Some (spec :: specs)).
      simpl in HmapM |- *; rewrite HmapM; simpl.
      destruct filters as [|f [|f' filters]];
        [discriminate Hlen|reflexivity|reflexivity]. }
  exists request; split; [exact Hreq|]; split.
  - apply run_ga4_report_requests; exact Hreq.
  - rewrite Hfe; split.
    + intros H2; destruct filters as [|f [|f' filters]]; simpl in *;
        [lia|lia|reflexivity].
    + intros f ->; reflexivity.
Qed.

Lemma C5_filters_anded_or_unwrapped_witness :
  exists request,
    build_request ascii_python "123" ["totalUsers"]
      (datetime_now TIMEZONE sample_clock) (datetime_now TIMEZONE sample_clock)
      None
      (Some [("eventName", "page_view", "exact");
             ("country", "Ca", "begins_with")]) = Ok request
    /\ ga4_requests
         (snd (run_ga4_report ascii_python "123" backend_one_row ["totalUsers"]
                 (datetime_now TIMEZONE sample_clock)
                 (datetime_now TIMEZONE sample_clock) None
                 (Some [("eventName", "page_view", "exact");
                        ("country", "Ca", "begins_with")]) (mkWorld [] [])))
       = ([] ++ [request])%list
    /\ (2 <= 2 ->
        dimension_filter request
        = Some (FE_and_group
                  (map FE_filter
                     [mkFilter "eventName" (mkStringFilter "page_view" EXACT);
                      mkFilter "country" (mkStringFilter "Ca" BEGINS_WITH)])))
    /\ (forall f,
           [mkFilter "eventName" (mkStringFilter "page_view" EXACT);
            mkFilter "country" (mkStringFilter "Ca" BEGINS_WITH)] = [f] ->
           dimension_filter request = Some (FE_filter f)).
Proof.
  apply (C5_filters_anded_or_unwrapped ascii_python "123" backend_one_row ["totalUsers"]
           (datetime_now TIMEZONE sample_clock)
           (datetime_now TIMEZONE sample_clock) None
           [("eventName", "page_view", "exact");
            ("country", "Ca", "begins_with")]
           [mkFilter "eventName" (mkStringFilter "page_view" EXACT);
            mkFilter "country" (mkStringFilter "Ca" BEGINS_WITH)]
           (mkWorld [] [])).
  repeat constructor.
Defined.

(** C7. The funnel passes exactly one filter triple, a full-regexp match
    of the event name against the alternation of its three events; the
    request it builds, and sends, carries that single filter unwrapped,
    not an AND-group. *)
Theorem C7_funnel_single_regex_filter :
  funnel_filter_specs
  = Some [("eventName", "page_view|click_register|discord_signin",
           "FULL_REGEXP")]
  /\ (forall py property_id range_start range_end,
         build_request py property_id funnel_metric_names range_start range_end
           funnel_dimension_names funnel_filter_specs
         = Ok (funnel_request property_id range_start range_end)
         /\ dimension_filter (funnel_request property_id range_start range_end)
            = Some (FE_filter
                      (mkFilter "eventName"
                         (mkStringFilter
                            "page_view|click_register|discord_signin"
                            FULL_REGEXP))))
  /\ (forall py property_id ga4_backend clock lookback_days w
             range_start range_end,
         funnel_date_range clock lookback_days = Ok (range_start, range_end) ->
         ga4_requests
           (snd (funnel py property_id ga4_backend clock lookback_days w))
         = (ga4_requests w
              ++ [funnel_request property_id range_start range_end])%list).
Proof.
  split; [reflexivity|]; split.
  - intros; split; [apply funnel_build_request|reflexivity].
  - intros * Hrange.
    pose proof (run_ga4_report_requests py property_id ga4_backend
                  funnel_metric_names range_start range_end
                  funnel_dimension_names funnel_filter_specs _ w
                  (funnel_build_request py property_id range_start range_end))
      as Hsent.
    rewrite funnel_eq, Hrange.
    destruct (run_ga4_report _ _ _ _ _ _ _ _ w) as [[counts|e] w']; exact Hsent.
Qed.

Lemma C7_funnel_single_regex_filter_witness :
  ga4_requests (snd (funnel ascii_python "123" backend_down sample_clock 14 (mkWorld [] [])))
  = ([] ++ [funnel_request "123"
              (mkDatetime 739910 0 0 0 0 TIMEZONE)
              (datetime_now TIMEZONE sample_clock)])%list.
Proof.
  apply (proj2 (proj2 C7_funnel_single_regex_filter) ascii_python "123"
           backend_down sample_clock 14%Z (mkWorld [] [])).
  reflexivity.
Defined.

(** ** Letter case of the match mode *)

Lemma assoc_members_sound (name : string) (m : MatchType) :
  assoc name MatchType_members = Some m -> (name, m) ∈ MatchType_members.
Proof.
  unfold MatchType_members; cbn [assoc].
  repeat match goal with
         | |- (if String.eqb ?k name then _ else _) = _ -> _ =>
             destruct (String.eqb_spec k name) as [<-|_];
             [intros [= <-];
              repeat (first [apply list_elem_of_here|apply list_elem_of_further])
             |]
         end.
  discriminate.
Qed.

Lemma assoc_members_complete (name : string) (m : MatchType) :
  (name, m) ∈ MatchType_members -> assoc name MatchType_members = Some m.
Proof.
  unfold MatchType_members; intros Hin.
  repeat (apply elem_of_cons in Hin as [[= -> ->]|Hin]; [reflexivity|]).
  apply elem_of_nil in Hin; contradiction.
Qed.

(** The names of the members are ASCII and in upper case. *)
Lemma member_name_upper (name : string) (m : MatchType) :
  (name, m) ∈ MatchType_members ->
  Str.is_ascii name = true /\ Str.upper name = name.
Proof.
  unfold MatchType_members; intros Hin.
  repeat (apply elem_of_cons in Hin as [[= -> ->]|Hin];
          [split; vm_compute; reflexivity|]).
  apply elem_of_nil in Hin; contradiction.
Qed.

(** A filter triple is accepted exactly when the upper-case form of its
    mode is the name of a member, and the filter then carries that
    member. *)
Lemma build_filter_iff (py : Python) (field text mode : string) (f : Filter) :
  build_filter py (field, text, mode) = Ok f
  <-> exists m,
        (str_upper py mode, m) ∈ MatchType_members
        /\ f = mkFilter field (mkStringFilter text m).
Proof.
  unfold build_filter, MatchType_getitem; split.
  - destruct (assoc (str_upper py mode) MatchType_members) as [m|] eqn:Hm;
      simpl; [|discriminate].
    intros [= <-]; exists m; split;
      [apply assoc_members_sound; exact Hm|reflexivity].
  - intros (m & Hin & ->).
    rewrite (assoc_members_complete _ _ Hin); reflexivity.
Qed.

Lemma build_filter_same_up_to_case (py : Python) (s t : filter_spec) :
  same_up_to_case s t -> build_filter py s = build_filter py t.
Proof.
  destruct s as [[field1 text1] mode1], t as [[field2 text2] mode2]; simpl.
  intros (-> & -> & Hmode); unfold build_filter.
  rewrite (str_upper_case py _ _ Hmode); reflexivity.
Qed.

Lemma build_filter_expression_same_up_to_case (py : Python)
    (specs1 specs2 : list filter_spec) :
  Forall2 same_up_to_case specs1 specs2 ->
  build_filter_expression py (Some specs1)
  = build_filter_expression py (Some specs2).
Proof.
  intros H; unfold build_filter_expression.
  assert (HmapM : mapM (build_filter py) specs1 = mapM (build_filter py) specs2).
  { induction H as [|s t specs1 specs2 Hst _ IH]; [reflexivity|].
    simpl; rewrite (build_filter_same_up_to_case _ _ _ Hst), IH; reflexivity. }
  destruct H as [|s t specs1 specs2 Hst Hrest]; [reflexivity|].
  simpl truthy; cbv iota.
  change (default [] (Some (s :: specs1))) with (s :: specs1).
  change (default [] (Some (t :: specs2))) with (t :: specs2).
  rewrite HmapM; reflexivity.
Qed.

(** C10. The match mode of a filter triple is resolved by upper-casing it
    and looking the result up among the names of [MatchType]: a triple is
    accepted exactly when the upper-case form of its mode is the name of a
    member, whose match type the filter then carries, and is refused with
    a [KeyError] otherwise. So every spelling of a member's name, in any
    letter case, resolves to that member (["full_regexp"] names
    [FULL_REGEXP]), and two calls that agree except for the letter case
    of match modes build the same request, leave the same world and
    return the same result. *)
Theorem C10_match_mode_case_insensitive
    (py : Python) (property_id : string)
    (ga4_backend : RunReportRequest -> result RunReportResponse)
    metric_names start_date end_date dimension_names
    (specs1 specs2 : list filter_spec) (w : World)
    (Hcase : Forall2 same_up_to_case specs1 specs2) :
  build_request py property_id metric_names start_date end_date
    dimension_names (Some specs1)
  = build_request py property_id metric_names start_date end_date
      dimension_names (Some specs2)
  /\ run_ga4_report py property_id ga4_backend metric_names start_date
       end_date dimension_names (Some specs1) w
     = run_ga4_report py property_id ga4_backend metric_names start_date
         end_date dimension_names (Some specs2) w
  /\ (forall field text,
         build_filter py (field, text, "full_regexp")
         = Ok (mkFilter field (mkStringFilter text FULL_REGEXP)))
  /\ (forall field text mode f,
         build_filter py (field, text, mode) = Ok f
         <-> exists m,
               (str_upper py mode, m) ∈ MatchType_members
               /\ f = mkFilter field (mkStringFilter text m))
  /\ (forall field text mode,
         (forall m, (str_upper py mode, m) ∉ MatchType_members) ->
         build_filter py (field, text, mode)
         = Err (KeyError (str_repr py (str_upper py mode))))
  /\ (forall field text mode name m,
         (name, m) ∈ MatchType_members ->
         Str.differ_only_in_case mode name ->
         build_filter py (field, text, mode)
         = Ok (mkFilter field (mkStringFilter text m))).
Proof.
  assert (Hreq : build_request py property_id metric_names start_date
                   end_date dimension_names (Some specs1)
                 = build_request py property_id metric_names start_date
                     end_date dimension_names (Some specs2)).
  { unfold build_request.
    rewrite (build_filter_expression_same_up_to_case _ _ _ Hcase).
    reflexivity. }
  assert (Hname : forall field text mode name m,
             (name, m) ∈ MatchType_members ->
             Str.differ_only_in_case mode name ->
             build_filter py (field, text, mode)
             = Ok (mkFilter field (mkStringFilter text m))).
  { intros field text mode name m Hin Hmode.
    destruct (member_name_upper _ _ Hin) as [Hascii Hupper].
    apply build_filter_iff; exists m; split; [|reflexivity].
    rewrite (str_upper_case py _ _ Hmode), (str_upper_ascii py _ Hascii).
    rewrite Hupper; exact Hin. }
  split; [exact Hreq|]; split; [|split; [|split; [|split]]].
  - rewrite !run_ga4_report_eq, Hreq; reflexivity.
  - intros field text.
    apply (Hname field text "full_regexp" "FULL_REGEXP" FULL_REGEXP).
    + apply assoc_members_sound; reflexivity.
    + simpl; unfold Str.same_letter.
      repeat split; solve [left; reflexivity | right; left; split; reflexivity].
  - intros field text mode f; apply build_filter_iff.
  - intros field text mode Hnone.
    unfold build_filter, MatchType_getitem.
    destruct (assoc (str_upper py mode) MatchType_members) as [m|] eqn:Hm;
      [|reflexivity].
    exfalso; apply (Hnone m), assoc_members_sound; exact Hm.
  - exact Hname.
Qed.

Lemma C10_match_mode_case_insensitive_witness :
  run_ga4_report ascii_python "123" backend_one_row ["totalUsers"]
    (datetime_now TIMEZONE sample_clock) (datetime_now TIMEZONE sample_clock)
    None (Some [("eventName", "page_view|click_register", "full_regexp")])
    (mkWorld [] [])
  = run_ga4_report ascii_python "123" backend_one_row ["totalUsers"]
      (datetime_now TIMEZONE sample_clock) (datetime_now TIMEZONE sample_clock)
      None (Some [("eventName", "page_view|click_register", "FULL_REGEXP")])
      (mkWorld [] [])
  /\ build_filter ascii_python ("eventName", "page", "Begins_With")
     = Ok (mkFilter "eventName" (mkStringFilter "page" BEGINS_WITH))
  /\ build_filter ascii_python ("eventName", "page", "starts_with")
     = Err (KeyError "'STARTS_WITH'").
Proof.
  assert (Hcase : Forall2 same_up_to_case
                    [("eventName", "page_view|click_register", "full_regexp")]
                    [("eventName", "page_view|click_register", "FULL_REGEXP")]).
  { constructor; [|constructor].
    simpl; unfold Str.same_letter.
    repeat split; solve [left; reflexivity | right; left; split; reflexivity]. }
  destruct (C10_match_mode_case_insensitive ascii_python "123"
              backend_one_row ["totalUsers"]
              (datetime_now TIMEZONE sample_clock)
              (datetime_now TIMEZONE sample_clock) None _ _ (mkWorld [] [])
              Hcase) as (_ & Hrun & _ & _ & Hnone & Hname).
  split; [exact Hrun|]; split.
  - apply (Hname "eventName" "page" "Begins_With" "BEGINS_WITH" BEGINS_WITH).
    + apply assoc_members_sound; reflexivity.
    + simpl; unfold Str.same_letter.
      repeat split; solve [left; reflexivity | right; left; split; reflexivity].
  - apply (Hnone "eventName" "page" "starts_with").
    intros m Hin; apply assoc_members_complete in Hin; discriminate Hin.
Defined.

(** ** The date range *)

(** C6. For a lookback of 7, 14 or 30 days the range ends today, on the
    wall clock of the reference zone, starts [lookback - 1] days earlier
    in the same zone, and so spans exactly [lookback] calendar days, both
    ends included; these two dates are the ones of the request. *)
Theorem C6_date_range_spans_lookback
    (clock : wall_clock) (lookback_days : Z)
    (Hlookback : lookback_days ∈ LOOKBACK_OPTIONS)
    (Htoday : (30 <= clock_ordinal clock <= Calendar.MAXORDINAL)%Z) :
  exists range_start range_end,
    funnel_date_range clock lookback_days = Ok (range_start, range_end)
    /\ range_end = datetime_now TIMEZONE clock
    /\ tzinfo range_start = TIMEZONE
    /\ tzinfo range_end = TIMEZONE
    /\ Calendar.date range_end = clock_ordinal clock
    /\ Calendar.date range_start
       = (clock_ordinal clock - (lookback_days - 1))%Z
    /\ (Calendar.date range_end - Calendar.date range_start + 1)%Z
       = lookback_days
    /\ forall property_id,
         date_ranges (funnel_request property_id range_start range_end)
         = [mkDateRange (format_date range_start) (format_date range_end)].
Proof.
  assert (Hdays : (1 <= lookback_days <= 30)%Z).
  { unfold LOOKBACK_OPTIONS in Hlookback.
    repeat (apply elem_of_cons in Hlookback as [->|Hlookback]; [lia|]).
    apply elem_of_nil in Hlookback; contradiction. }
  unfold funnel_date_range, Calendar.sub_days; simpl.
  replace ((0 <? clock_ordinal clock - (lookback_days - 1))%Z
           && (clock_ordinal clock - (lookback_days - 1)
               <=? Calendar.MAXORDINAL)%Z)
    with true
    by (symmetry; apply andb_true_iff; split;
        [apply Z.ltb_lt|apply Z.leb_le]; lia).
  eexists _, _; split; [reflexivity|].
  unfold Calendar.date; simpl.
  repeat split; try reflexivity; lia.
Qed.

Lemma C6_date_range_spans_lookback_witness :
  exists range_start range_end,
    funnel_date_range sample_clock 14 = Ok (range_start, range_end)
    /\ range_end = datetime_now TIMEZONE sample_clock
    /\ tzinfo range_start = TIMEZONE
    /\ tzinfo range_end = TIMEZONE
    /\ Calendar.date range_end = clock_ordinal sample_clock
    /\ Calendar.date range_start = (clock_ordinal sample_clock - (14 - 1))%Z
    /\ (Calendar.date range_end - Calendar.date range_start + 1)%Z = 14%Z
    /\ forall property_id,
         date_ranges (funnel_request property_id range_start range_end)
         = [mkDateRange (format_date range_start) (format_date range_end)].
Proof.
  apply (C6_date_range_spans_lookback sample_clock 14%Z).
  - unfold LOOKBACK_OPTIONS; apply list_elem_of_further, list_elem_of_here.
  - unfold Calendar.MAXORDINAL; simpl; lia.
Defined.

(* ================================================================== *)
(** * Further properties of [run_ga4_report] *)
(* ================================================================== *)

Lemma mapM_result_app_Err {A B : Type} (f : A -> result B)
    (good : list A) (bad : A) (rest : list A) (bs : list B) (e : exn) :
  mapM f good = Ok bs -> f bad = Err e ->
  mapM f (good ++ bad :: rest) = Err e.
Proof.
  revert bs; induction good as [|a good IH]; intros bs; simpl.
  - intros _ ->; reflexivity.
  - destruct (f a) as [b|e']; simpl; [|discriminate].
    destruct (mapM f good) as [bs'|e']; simpl; [|discriminate].
    intros _ Hbad; rewrite (IH _ eq_refl Hbad); reflexivity.
Qed.

Lemma rows_to_dict_entries (py : Python) (response_rows : list Row) :
  forall acc,
    rows_to_dict py response_rows acc
    = (entries ← mapM (row_entry py) response_rows;
       mret (foldl store_entry acc entries)).
Proof.
  induction response_rows as [|row response_rows IH]; intros acc;
    [reflexivity|].
  simpl; set (tail := mapM (row_entry py) response_rows) in *.
  unfold row_entry.
  destruct (head0 (dimension_values row)) as [dv|e]; simpl; [|reflexivity].
  destruct (head0 (metric_values row)) as [mt|e]; simpl; [|reflexivity].
  destruct (int_of_str py mt) as [n|e]; simpl; [|reflexivity].
  rewrite IH.
  destruct tail as [entries|e]; reflexivity.
Qed.

Lemma foldl_store_entry_lookup_notin (entries : list (string * Z))
    (key : string) :
  key ∉ entries.*1 ->
  forall d, foldl store_entry d entries !! key = d !! key.
Proof.
  induction entries as [|[k v] entries IH]; intros Hnotin d; [reflexivity|].
  simpl in *; apply not_elem_of_cons in Hnotin as [Hne Hnotin].
  rewrite (IH Hnotin); unfold store_entry; simpl.
  apply lookup_insert_ne; congruence.
Qed.

Lemma foldl_store_entry_is_Some (entries : list (string * Z)) (key : string) :
  forall d,
    is_Some (foldl store_entry d entries !! key)
    <-> is_Some (d !! key) \/ key ∈ entries.*1.
Proof.
  induction entries as [|[k v] entries IH]; intros d; simpl.
  - rewrite elem_of_nil; tauto.
  - rewrite IH, elem_of_cons; unfold store_entry; simpl.
    destruct (decide (k = key)) as [->|Hne].
    + rewrite lookup_insert_eq; split; [auto|intros _; left; eauto].
    + rewrite lookup_insert_ne by assumption.
      split; [tauto|intros [?|[?|?]]; [tauto|congruence|tauto]].
Qed.

(** X1. In a dimensioned call that reaches the backend and whose rows are
    all readable (each has a dimension value and a metric value that
    [int] reads), the result maps exactly the first dimension values of
    the rows, and a value carried by several rows is mapped to the metric
    of the last of them; one request is sent and nothing is shown. *)
Theorem X1_dimensioned_report_last_row_wins
    (py : Python) (property_id : string)
    (ga4_backend : RunReportRequest -> result RunReportResponse)
    metric_names start_date end_date dimension_names filter_specs
    (w : World) (request : RunReportRequest) (response : RunReportResponse)
    (entries : list (string * Z))
    (Hdim : truthy dimension_names = true)
    (Hreq : build_request py property_id metric_names start_date end_date
              dimension_names filter_specs = Ok request)
    (Hresp : ga4_backend request = Ok response)
    (Hrows : mapM (row_entry py) (rows response) = Ok entries) :
  exists d,
    run_ga4_report py property_id ga4_backend metric_names start_date end_date
      dimension_names filter_specs w
    = (Ok (RDict d), after_request request w)
    /\ (forall key, is_Some (d !! key) <-> key ∈ entries.*1)
    /\ (forall before key n after,
           entries = (before ++ (key, n) :: after)%list ->
           key ∉ after.*1 ->
           d !! key = Some n).
Proof.
  exists (foldl store_entry ∅ entries); split; [|split].
  - rewrite run_ga4_report_eq, Hreq, Hresp; simpl.
    rewrite (build_request_dimensions _ _ _ _ _ _ _ _ Hreq), Hdim.
    unfold shape_response.
    destruct dimension_names as [[|name names]|]; try discriminate Hdim.
    simpl; rewrite rows_to_dict_entries, Hrows; reflexivity.
  - intros key; rewrite foldl_store_entry_is_Some, lookup_empty.
    split; [intros [[x Hx]|H]; [discriminate|exact H]|auto].
  - intros before key n after -> Hlast.
    rewrite foldl_app; simpl.
    rewrite (foldl_store_entry_lookup_notin _ _ Hlast).
    unfold store_entry; simpl; apply lookup_insert_eq.
Qed.

Lemma X1_dimensioned_report_last_row_wins_witness :
  exists d,
    run_ga4_report ascii_python "123"
      (fun _ => Ok (mkRunReportResponse
                      [mkRow ["page_view"] ["10"];
                       mkRow ["click_register"] ["4"];
                       mkRow ["page_view"] ["12"]]))
      ["totalUsers"]
      (datetime_now TIMEZONE sample_clock) (datetime_now TIMEZONE sample_clock)
      (Some ["eventName"]) None (mkWorld [] [])
    = (Ok (RDict d),
       after_request
         (mkRunReportRequest "properties/123" [mkMetric "totalUsers"]
            [mkDateRange "2026-11-03" "2026-11-03"]
            (Some [mkDimension "eventName"]) None)
         (mkWorld [] []))
    /\ d !! "page_view" = Some 12%Z.
Proof.
  destruct (X1_dimensioned_report_last_row_wins ascii_python "123"
              (fun _ => Ok (mkRunReportResponse
                              [mkRow ["page_view"] ["10"];
                               mkRow ["click_register"] ["4"];
                               mkRow ["page_view"] ["12"]]))
              ["totalUsers"]
              (datetime_now TIMEZONE sample_clock)
              (datetime_now TIMEZONE sample_clock)
              (Some ["eventName"]) None (mkWorld [] []) _ _
              [("page_view", 10%Z); ("click_register", 4%Z);
               ("page_view", 12%Z)]
              eq_refl eq_refl eq_refl eq_refl) as (d & Hrun & _ & Hlast).
  exists d; split; [exact Hrun|].
  apply (Hlast [("page_view", 10%Z); ("click_register", 4%Z)] "page_view"
           12%Z []); [reflexivity|].
  simpl; apply not_elem_of_nil.
Defined.

(** X2. In a dimensioned call that reaches the backend, a row that cannot
    be read (no dimension value, no metric value, or a metric value that
    [int] refuses) discards the whole report: the result is the empty
    mapping, the entries of the rows before it are lost, and the error of
    that row is shown. *)
Theorem X2_unreadable_row_discards_report
    (py : Python) (property_id : string)
    (ga4_backend : RunReportRequest -> result RunReportResponse)
    metric_names start_date end_date dimension_names filter_specs
    (w : World) (request : RunReportRequest) (response : RunReportResponse)
    (good : list Row) (bad : Row) (rest : list Row)
    (entries : list (string * Z)) (e : exn)
    (Hdim : truthy dimension_names = true)
    (Hreq : build_request py property_id metric_names start_date end_date
              dimension_names filter_specs = Ok request)
    (Hresp : ga4_backend request = Ok response)
    (Hrows : rows response = (good ++ bad :: rest)%list)
    (Hgood : mapM (row_entry py) good = Ok entries)
    (Hbad : row_entry py bad = Err e) :
  run_ga4_report py property_id ga4_backend metric_names start_date end_date
    dimension_names filter_specs w
  = (Ok (RDict ∅), after_error e (after_request request w)).
Proof.
  rewrite run_ga4_report_eq, Hreq, Hresp; simpl.
  rewrite (build_request_dimensions _ _ _ _ _ _ _ _ Hreq), Hdim.
  unfold shape_response, safe_default; rewrite Hdim.
  destruct dimension_names as [[|name names]|]; try discriminate Hdim.
  simpl; rewrite rows_to_dict_entries, Hrows.
  rewrite (mapM_result_app_Err _ _ _ _ _ _ Hgood Hbad); reflexivity.
Qed.

Lemma X2_unreadable_row_discards_report_witness :
  run_ga4_report ascii_python "123"
    (fun _ => Ok (mkRunReportResponse
                    [mkRow ["page_view"] ["10"];
                     mkRow ["click_register"] ["n/a"]]))
    ["totalUsers"]
    (datetime_now TIMEZONE sample_clock) (datetime_now TIMEZONE sample_clock)
    (Some ["eventName"]) None (mkWorld [] [])
  = (Ok (RDict ∅),
     after_error
       (ValueError "invalid literal for int() with base 10: 'n/a'")
       (after_request
          (mkRunReportRequest "properties/123" [mkMetric "totalUsers"]
             [mkDateRange "2026-11-03" "2026-11-03"]
             (Some [mkDimension "eventName"]) None)
          (mkWorld [] []))).
Proof.
  eapply (X2_unreadable_row_discards_report ascii_python "123"
           (fun _ => Ok (mkRunReportResponse
                           [mkRow ["page_view"] ["10"];
                            mkRow ["click_register"] ["n/a"]]))
           ["totalUsers"]
           (datetime_now TIMEZONE sample_clock)
           (datetime_now TIMEZONE sample_clock)
           (Some ["eventName"]) None (mkWorld [] []) _ _
           [mkRow ["page_view"] ["10"]] (mkRow ["click_register"] ["n/a"]) []
           [("page_view", 10%Z)]);
    reflexivity.
Defined.

(** X3. A filter triple whose match mode, in upper case, names no member
    of [MatchType] stops the body of the call before the backend is
    reached: no request is sent, the safe default is returned, and the
    message shows the [repr] of the upper-cased mode of the first such
    triple. *)
Theorem X3_unknown_match_mode_sends_nothing
    (py : Python) (property_id : string)
    (ga4_backend : RunReportRequest -> result RunReportResponse)
    metric_names start_date end_date dimension_names
    (before : list filter_spec) (field text mode : string)
    (after : list filter_spec) (filters : list Filter) (w : World)
    (Hbefore : mapM (build_filter py) before = Ok filters)
    (Hmode : assoc (str_upper py mode) MatchType_members = None) :
  run_ga4_report py property_id ga4_backend metric_names start_date end_date
    dimension_names (Some (before ++ (field, text, mode) :: after)%list) w
  = (Ok (safe_default dimension_names),
     mkWorld
       (st_errors w
          ++ ["Error fetching from GA4: " ++ str_repr py (str_upper py mode)])
       (ga4_requests w)).
Proof.
  assert (Hbad : build_filter py (field, text, mode)
                 = Err (KeyError (str_repr py (str_upper py mode)))).
  { unfold build_filter, MatchType_getitem; rewrite Hmode; reflexivity. }
  rewrite run_ga4_report_eq.
  unfold build_request, build_filter_expression.
  replace (truthy (Some (before ++ (field, text, mode) :: after)%list))
    with true by (destruct before; reflexivity).
  change (default [] (Some ?l)) with l.
  rewrite (mapM_result_app_Err _ _ _ _ _ _ Hbefore Hbad); reflexivity.
Qed.

Lemma X3_unknown_match_mode_sends_nothing_witness :
  run_ga4_report ascii_python "123" backend_one_row ["totalUsers"]
    (datetime_now TIMEZONE sample_clock) (datetime_now TIMEZONE sample_clock)
    None
    (Some ([("eventName", "page_view", "exact")]
             ++ ("country", "Ca", "starts_with") :: [])%list)
    (mkWorld [] [])
  = (Ok (RInt 0),
     mkWorld ([] ++ ["Error fetching from GA4: 'STARTS_WITH'"]) []).
Proof.
  apply (X3_unknown_match_mode_sends_nothing ascii_python "123"
           backend_one_row
           ["totalUsers"] (datetime_now TIMEZONE sample_clock)
           (datetime_now TIMEZONE sample_clock) None
           [("eventName", "page_view", "exact")] "country" "Ca" "starts_with"
           [] [mkFilter "eventName" (mkStringFilter "page_view" EXACT)]
           (mkWorld [] []));
    reflexivity.
Defined.

(** X4. The body of a call sends at most one request and shows at most
    one message, after those already there, and never raises; a message
    is shown only together with the safe default. *)
Theorem X4_one_call_one_request_one_message
    (py : Python) (property_id : string)
    (ga4_backend : RunReportRequest -> result RunReportResponse)
    metric_names start_date end_date dimension_names filter_specs
    (w : World) :
  exists r w' shown sent,
    run_ga4_report py property_id ga4_backend metric_names start_date end_date
      dimension_names filter_specs w = (Ok r, w')
    /\ st_errors w' = (st_errors w ++ shown)%list
    /\ ga4_requests w' = (ga4_requests w ++ sent)%list
    /\ length shown <= 1
    /\ length sent <= 1
    /\ (shown ≠ [] -> r = safe_default dimension_names).
Proof.
  rewrite run_ga4_report_eq.
  destruct (build_request _ _ _ _ _ _) as [request|e].
  - destruct (ga4_backend request ≫= _) as [r|e].
    + exists r, (after_request request w), [], [request]; simpl.
      rewrite app_nil_r; repeat split; auto; try discriminate; congruence.
    + eexists _, _, [_], [request]; simpl.
      repeat split; auto; discriminate.
  - eexists _, _, [_], []; simpl.
    rewrite app_nil_r; repeat split; auto; discriminate.
Qed.

(** X5. An empty tuple of dimension names, or of filter triples, is
    treated exactly as [None]: same request, same result, same world. *)
Theorem X5_empty_tuple_is_none
    (py : Python) (property_id : string)
    (ga4_backend : RunReportRequest -> result RunReportResponse)
    metric_names start_date end_date dimension_names filter_specs
    (w : World) :
  run_ga4_report py property_id ga4_backend metric_names start_date end_date
    (Some []) filter_specs w
  = run_ga4_report py property_id ga4_backend metric_names start_date end_date
      None filter_specs w
  /\ run_ga4_report py property_id ga4_backend metric_names start_date end_date
       dimension_names (Some []) w
     = run_ga4_report py property_id ga4_backend metric_names start_date end_date
         dimension_names None w.
Proof. split; rewrite !run_ga4_report_eq; reflexivity. Qed.

(** ** Reading back a decimal integer *)

Lemma append_nil (t : string) : "" ++ t = t.
Proof. reflexivity. Qed.

Lemma append_cons (c : ascii) (s t : string) :
  String c s ++ t = String c (s ++ t).
Proof. reflexivity. Qed.

Lemma string_append_assoc (s t u : string) : (s ++ t) ++ u = s ++ (t ++ u).
Proof.
  induction s as [|c s IH]; [reflexivity|].
  rewrite !append_cons, IH; reflexivity.
Qed.

Lemma rev_onto_spec (s acc : string) :
  Str.rev_onto s acc = Str.rev_onto s EmptyString ++ acc.
Proof.
  revert acc; induction s as [|c s IH]; intros acc; simpl; [reflexivity|].
  rewrite IH, (IH (String c EmptyString)), string_append_assoc.
  reflexivity.
Qed.

Lemma rev_onto_append (s t acc : string) :
  Str.rev_onto (s ++ t) acc = Str.rev_onto t (Str.rev_onto s acc).
Proof.
  revert acc; induction s as [|c s IH]; intros acc; [reflexivity|].
  rewrite append_cons; simpl; apply IH.
Qed.

Lemma rev_involutive (s : string) : Str.rev (Str.rev s) = s.
Proof.
  unfold Str.rev; induction s as [|c s IH]; simpl; [reflexivity|].
  rewrite (rev_onto_spec s (String c EmptyString)), rev_onto_append, IH.
  reflexivity.
Qed.

Lemma no_space_append (s t : string) :
  no_space (s ++ t) = no_space s && no_space t.
Proof.
  induction s as [|c s IH]; [reflexivity|].
  rewrite append_cons; simpl; rewrite IH, andb_assoc; reflexivity.
Qed.

Lemma no_space_rev (s : string) : no_space s = true -> no_space (Str.rev s) = true.
Proof.
  unfold Str.rev; induction s as [|c s IH]; simpl; [reflexivity|].
  intros H; apply andb_true_iff in H as [Hc Hs].
  rewrite (rev_onto_spec s (String c EmptyString)), no_space_append, (IH Hs).
  simpl; rewrite Hc; reflexivity.
Qed.

Lemma lstrip_no_space (s : string) : no_space s = true -> Str.lstrip s = s.
Proof.
  destruct s as [|c s]; simpl; [reflexivity|].
  intros H; apply andb_true_iff in H as [Hc _].
  apply negb_true_iff in Hc; rewrite Hc; reflexivity.
Qed.

Lemma strip_no_space (s : string) : no_space s = true -> Str.strip s = s.
Proof.
  intros H; unfold Str.strip.
  rewrite (lstrip_no_space _ H), (lstrip_no_space _ (no_space_rev _ H)).
  apply rev_involutive.
Qed.

Lemma int_digits_string_of_uint (d : Decimal.uint) :
  forall acc after_digit,
    d ≠ Decimal.Nil \/ after_digit = true ->
    int_digits acc after_digit (NilEmpty.string_of_uint d)
    = Some (uint_value d acc).
Proof.
  induction d; intros acc after_digit Hne;
    [destruct Hne as [Hne| ->]; [congruence|reflexivity]|..];
    cbn -[Z.mul Z.add Str.is_digit Str.digit_value];
    rewrite IHd by (right; reflexivity);
    match goal with
    | |- context [Str.is_digit ?c] =>
        let b := eval vm_compute in (Str.is_digit c) in
        let v := eval vm_compute in (Str.digit_value c) in
        change (Str.is_digit c) with b; change (Str.digit_value c) with v
    end;
    cbv iota; f_equal; f_equal; lia.
Qed.

Lemma uint_value_pos (d : Decimal.uint) (acc : BinNums.positive) :
  uint_value d (Z.pos acc) = Z.pos (Pos.of_uint_acc d acc).
Proof.
  revert acc; induction d; intros acc; simpl uint_value; simpl Pos.of_uint_acc;
    try reflexivity; rewrite <- IHd; f_equal; lia.
Qed.

Lemma uint_value_zero (d : Decimal.uint) :
  uint_value d 0 = Z.of_N (Pos.of_uint d).
Proof.
  induction d; simpl uint_value; simpl Pos.of_uint;
    try reflexivity; try exact IHd;
    match goal with
    | |- uint_value _ ?z = _ =>
        change z with (Z.pos (Z.to_pos z)); rewrite uint_value_pos; reflexivity
    end.
Qed.

(* ================================================================== *)
(** * Further properties of the funnel *)
(* ================================================================== *)

Lemma pct_column_lookup (Total : list float) (t : float) (i : nat) :
  Total !! 1 = Some t ->
  i < length Total ->
  (SENTINEL :: map (pct_cell t) (drop 1 Total)) !! i
  = Some (if (1 <=? i)%nat then pct_cell t (total_at Total i) else SENTINEL).
Proof.
  intros Ht Hi; destruct i as [|j]; [reflexivity|].
  change ((SENTINEL :: ?l) !! S j) with (l !! j).
  rewrite lookup_map, lookup_drop; unfold total_at.
  destruct (lookup_lt_is_Some_2 Total (1 + j)) as [x Hx]; [lia|].
  change (S j) with (1 + j); rewrite Hx; reflexivity.
Qed.

Lemma derived_columns_pct (Total : list float) :
  exists pct_column drop_column,
    derived_columns Total = Ok (pct_column, drop_column)
    /\ length pct_column = length Total
    /\ forall i, i < length Total ->
                 pct_column !! i = Some (pct_as_computed Total i).
Proof.
  rewrite derived_columns_eq; unfold pct_as_computed.
  destruct (baseline_present_positive Total) eqn:Hg.
  - unfold baseline_present_positive in Hg.
    destruct (Total !! 1) as [t|] eqn:Ht; [|discriminate].
    assert (Hn : 1 < length Total) by (eapply lookup_lt_Some; eauto).
    eexists _, _; split; [reflexivity|]; split.
    + simpl; rewrite length_map, length_drop; lia.
    + intros i Hi; simpl default; unfold total_at at 1; rewrite Ht.
      simpl default; rewrite (pct_column_lookup _ _ _ Ht Hi); reflexivity.
  - eexists _, _; split; [reflexivity|]; split.
    + apply length_replicate.
    + intros i Hi; apply lookup_replicate_2; assumption.
Qed.

(** X7. The percentage column has one cell per stage. When the baseline
    total is present and positive, the placeholder carries the sentinel
    and every other stage its total divided by the baseline total, as a
    percentage with two decimals (never the sentinel); otherwise every
    cell is the sentinel. *)
Theorem X7_percentage_column (Total : list float) :
  exists pct_column drop_column,
    derived_columns Total = Ok (pct_column, drop_column)
    /\ length pct_column = length Total
    /\ (forall i, i < length Total ->
                  pct_column !! i = Some (pct_as_computed Total i))
    /\ (forall i, baseline_present_positive Total = true -> 1 <= i ->
                  pct_as_computed Total i ≠ SENTINEL).
Proof.
  destruct (derived_columns_pct Total) as (pct & drop & Heq & Hlen & Hcells).
  exists pct, drop; repeat split; try assumption.
  intros i Hg Hi; unfold pct_as_computed; rewrite Hg.
  replace (1 <=? i)%nat with true by (symmetry; apply Nat.leb_le; lia).
  apply format_pct2_not_sentinel.
Qed.

Lemma X7_percentage_column_witness :
  exists pct_column drop_column,
    derived_columns (funnel_totals example_counts)
    = Ok (pct_column, drop_column)
    /\ pct_column !! 2 = Some "25.00%".
Proof.
  destruct (X7_percentage_column (funnel_totals example_counts))
    as (pct_column & drop_column & Heq & _ & Hcells & _).
  exists pct_column, drop_column; split; [exact Heq|].
  rewrite (Hcells 2); [vm_compute; reflexivity|simpl; lia].
Defined.

(** X8. The two derived columns are nothing but sentinels exactly when the
    baseline total is not both present and strictly positive; a negative
    baseline blanks the table just as a zero one does. *)
Theorem X8_all_sentinel_iff_no_baseline (Total : list float) :
  derived_columns Total
  = Ok (replicate (length Total) SENTINEL, replicate (length Total) SENTINEL)
  <-> baseline_present_positive Total = false.
Proof.
  split.
  - intros Hall.
    destruct (baseline_present_positive Total) eqn:Hg; [|reflexivity].
    assert (Hn : 1 < length Total).
    { unfold baseline_present_positive in Hg.
      destruct (Total !! 1) eqn:Ht; [|discriminate].
      eapply lookup_lt_Some; eauto. }
    destruct (derived_columns_pct Total) as (pct & drop & Heq & _ & Hcells).
    rewrite Heq in Hall; injection Hall as -> _.
    specialize (Hcells 1 Hn).
    rewrite lookup_replicate_2 in Hcells by exact Hn.
    injection Hcells as Hcell; unfold pct_as_computed in Hcell.
    rewrite Hg in Hcell; simpl in Hcell.
    symmetry in Hcell; apply format_pct2_not_sentinel in Hcell; contradiction.
  - intros Hg; rewrite derived_columns_eq, Hg; reflexivity.
Qed.

Lemma row_entry_Ok (py : Python) (row : Row) (key : string) (n : Z) :
  row_entry py row = Ok (key, n) ->
  exists text,
    head (metric_values row) = Some text /\ int_of_str py text = Ok n.
Proof.
  unfold row_entry.
  destruct (dimension_values row) as [|dv dvs]; simpl; [discriminate|].
  destruct (metric_values row) as [|text texts]; simpl; [discriminate|].
  destruct (int_of_str py text) as [v|e] eqn:Hint; simpl; [|discriminate].
  intros [= _ <-]; exists text; split; [reflexivity|exact Hint].
Qed.

Lemma mapM_row_entry_values (py : Python) (response_rows : list Row) :
  forall entries,
    mapM (row_entry py) response_rows = Ok entries ->
    forall key n,
      (key, n) ∈ entries ->
      exists row text,
        row ∈ response_rows
        /\ head (metric_values row) = Some text
        /\ int_of_str py text = Ok n.
Proof.
  induction response_rows as [|row response_rows IH]; intros entries; simpl.
  - intros [= <-] key n Hin; apply elem_of_nil in Hin; contradiction.
  - destruct (row_entry py row) as [[k v]|e] eqn:Hentry; simpl;
      [|discriminate].
    destruct (mapM (row_entry py) response_rows) as [tail|e]; simpl;
      [|discriminate].
    intros [= <-] key n Hin.
    apply elem_of_cons in Hin as [[= -> ->]|Hin].
    + destruct (row_entry_Ok _ _ _ _ Hentry) as (text & Hhead & Hint).
      exists row, text; split; [apply list_elem_of_here|].
      split; [exact Hhead|exact Hint].
    + destruct (IH _ eq_refl _ _ Hin) as (row' & text' & Hrow & Hhead & Hn).
      exists row', text'; split; [apply list_elem_of_further; exact Hrow|].
      split; assumption.
Qed.

Lemma foldl_store_entry_lookup (entries : list (string * Z)) (key : string)
    (n : Z) :
  forall d,
    foldl store_entry d entries !! key = Some n ->
    d !! key = Some n \/ (key, n) ∈ entries.
Proof.
  induction entries as [|[k v] entries IH]; intros d; simpl; [auto|].
  intros H; apply IH in H as [H|H].
  - unfold store_entry in H; simpl in H.
    destruct (decide (k = key)) as [->|Hne].
    + rewrite lookup_insert_eq in H; injection H as ->.
      right; apply list_elem_of_here.
    + rewrite lookup_insert_ne in H by exact Hne; left; exact H.
  - right; apply list_elem_of_further; exact H.
Qed.

(** A dimensioned call always returns a mapping, and a mapping of 64-bit
    counts when the backend reports such counts. *)
Lemma run_ga4_report_dimensioned (py : Python) (property_id : string)
    (ga4_backend : RunReportRequest -> result RunReportResponse)
    metric_names start_date end_date dimension_names filter_specs (w : World) :
  truthy dimension_names = true ->
  exists d w',
    run_ga4_report py property_id ga4_backend metric_names start_date end_date
      dimension_names filter_specs w = (Ok (RDict d), w')
    /\ (reports_int64 py ga4_backend ->
        forall key n, d !! key = Some n -> int64 n).
Proof.
  assert (Hempty : forall key n, (∅ : gmap string Z) !! key = Some n -> int64 n)
    by (intros key n H; rewrite lookup_empty in H; discriminate H).
  intros Hdim; rewrite run_ga4_report_eq.
  unfold safe_default; rewrite Hdim.
  destruct (build_request _ _ _ _ _ _ _) as [request|e] eqn:Hreq; [|eauto].
  rewrite (build_request_dimensions _ _ _ _ _ _ _ _ Hreq), Hdim.
  destruct (ga4_backend request) as [response|e] eqn:Hresp; simpl; [|eauto].
  unfold shape_response.
  destruct dimension_names as [[|name names]|]; try discriminate Hdim.
  simpl; rewrite rows_to_dict_entries.
  destruct (mapM (row_entry py) (rows response)) as [entries|e] eqn:Hrows;
    simpl; [|eauto].
  eexists _, _; split; [reflexivity|].
  intros Hcounts key n Hlookup.
  apply foldl_store_entry_lookup in Hlookup as [Hlookup|Hin];
    [rewrite lookup_empty in Hlookup; discriminate Hlookup|].
  destruct (mapM_row_entry_values _ _ _ Hrows _ _ Hin)
    as (row & text & Hrow & Hhead & Hint).
  exact (Hcounts _ _ _ _ _ Hresp Hrow Hhead Hint).
Qed.

Lemma counts_fit_of_int64 (d : gmap string Z) :
  (forall key n, d !! key = Some n -> int64 n) -> counts_fit d.
Proof.
  intros Hd.
  assert (Hget : forall key, int64 (default 0%Z (d !! key))).
  { intros key; destruct (d !! key) as [n|] eqn:Hn; simpl.
    - exact (Hd _ _ Hn).
    - unfold int64; lia. }
  repeat split; apply Hget.
Qed.

Lemma funnel_date_range_Ok (clock : wall_clock) (lookback_days : Z) :
  date_in_range clock lookback_days ->
  funnel_date_range clock lookback_days
  = Ok (mkDatetime (clock_ordinal clock - (lookback_days - 1)) 0 0 0 0 TIMEZONE,
        datetime_now TIMEZONE clock).
Proof.
  unfold date_in_range; intros Hrange.
  unfold funnel_date_range, Calendar.sub_days; simpl.
  replace ((0 <? clock_ordinal clock - (lookback_days - 1))%Z
           && (clock_ordinal clock - (lookback_days - 1)
               <=? Calendar.MAXORDINAL)%Z)
    with true
    by (symmetry; apply andb_true_iff; split;
        [apply Z.ltb_lt|apply Z.leb_le]; lia).
  reflexivity.
Qed.

Lemma funnel_table_columns (d : gmap string Z) :
  exists totals pct_column drop_column,
    funnel_table (RDict d)
    = Ok (mkFunnelTable funnel_labels totals pct_column drop_column)
    /\ length totals = 4 /\ length pct_column = 4 /\ length drop_column = 4
    /\ totals !! 0 = Some SENTINEL
    /\ pct_column !! 0 = Some SENTINEL
    /\ drop_column !! 0 = Some SENTINEL
    /\ drop_column !! 3 = Some SENTINEL.
Proof.
  rewrite funnel_table_RDict.
  destruct (derived_columns_pct (funnel_totals d))
    as (pct & drop & Heq & Hplen & Hpct).
  destruct (derived_columns_drop_off (funnel_totals d))
    as (pct' & drop' & Heq' & Hdlen & Hdrop).
  rewrite Heq in Heq'; injection Heq' as <- <-.
  rewrite Heq; eexists _, pct, drop; split; [reflexivity|].
  assert (Hp0 := Hpct 0 ltac:(simpl; lia)).
  assert (Hd0 := Hdrop 0 ltac:(simpl; lia)).
  assert (Hd3 := Hdrop 3 ltac:(simpl; lia)).
  unfold pct_as_computed in Hp0; rewrite andb_false_r in Hp0.
  unfold drop_off_guarded, drop_off_as_worded, interior in Hd0, Hd3.
  simpl in Hd0, Hd3.
  destruct (baseline_present_positive (funnel_totals d));
    repeat split; assumption.
Qed.

(** X9. Let the backend report 64-bit counts. Whatever it does (answer,
    fail, or answer with rows that cannot be read), the funnel part of a
    render, run on a date range that exists, ends normally: it yields the
    table of a mapping of 64-bit counts, of four rows under the four
    labels, whose placeholder row carries the sentinel in all three
    columns and whose last drop-off is the sentinel. *)
Theorem X9_funnel_always_renders
    (py : Python) (property_id : string)
    (ga4_backend : RunReportRequest -> result RunReportResponse)
    (clock : wall_clock) (lookback_days : Z) (w : World)
    (Hdate : date_in_range clock lookback_days)
    (Hcounts : reports_int64 py ga4_backend) :
  exists d table w',
    funnel py property_id ga4_backend clock lookback_days w = (Ok table, w')
    /\ counts_fit d
    /\ funnel_table (RDict d) = Ok table
    /\ Step table = funnel_labels
    /\ length (Total table) = 4
    /\ length (pct_of_Impressions table) = 4
    /\ length (Drop_off table) = 4
    /\ Total table !! 0 = Some SENTINEL
    /\ pct_of_Impressions table !! 0 = Some SENTINEL
    /\ Drop_off table !! 0 = Some SENTINEL
    /\ Drop_off table !! 3 = Some SENTINEL.
Proof.
  pose proof (funnel_date_range_Ok _ _ Hdate) as Hrange.
  rewrite funnel_eq, Hrange.
  set (range_start := mkDatetime _ 0 0 0 0 TIMEZONE).
  set (range_end := datetime_now TIMEZONE clock).
  destruct (run_ga4_report_dimensioned py property_id ga4_backend
              funnel_metric_names range_start range_end
              funnel_dimension_names funnel_filter_specs w eq_refl)
    as (d & w' & Hrun & Hfit).
  rewrite Hrun.
  destruct (funnel_table_columns d)
    as (totals & pct & drop & Htable & Hcols).
  rewrite Htable; eexists d, _, w'; split; [reflexivity|]; split.
  - apply counts_fit_of_int64, Hfit, Hcounts.
  - split; [exact Htable|]; simpl; split; [reflexivity|exact Hcols].
Qed.

Lemma X9_funnel_always_renders_witness :
  exists d table w',
    funnel ascii_python "123"
      (fun _ => Ok (mkRunReportResponse
                      [mkRow ["page_view"] ["1000"];
                       mkRow ["click_register"] ["n/a"]]))
      sample_clock 30 (mkWorld [] [])
    = (Ok table, w')
    /\ counts_fit d
    /\ funnel_table (RDict d) = Ok table
    /\ Step table = funnel_labels
    /\ length (Total table) = 4
    /\ length (pct_of_Impressions table) = 4
    /\ length (Drop_off table) = 4
    /\ Total table !! 0 = Some SENTINEL
    /\ pct_of_Impressions table !! 0 = Some SENTINEL
    /\ Drop_off table !! 0 = Some SENTINEL
    /\ Drop_off table !! 3 = Some SENTINEL.
Proof.
  apply (X9_funnel_always_renders ascii_python "123"
           (fun _ => Ok (mkRunReportResponse
                           [mkRow ["page_view"] ["1000"];
                            mkRow ["click_register"] ["n/a"]]))
           sample_clock 30%Z (mkWorld [] [])).
  - unfold date_in_range, Calendar.MAXORDINAL; simpl; lia.
  - intros request response row text n [= <-] Hrow Hhead Hint.
    simpl in Hrow.
    apply elem_of_cons in Hrow as [->|Hrow];
      [|apply list_elem_of_singleton in Hrow; subst row];
      simpl in Hhead; injection Hhead as <-;
      vm_compute in Hint; [|discriminate Hint].
    injection Hint as <-; unfold int64; lia.
Defined.

(** X10. When the backend answers the funnel's request with rows that can
    all be read, and whose counts for the three funnel events are 64-bit,
    the table is the one of the mapping those rows fill in order, one
    request is sent and nothing is shown; and the table depends on that
    mapping only through the counts of the three funnel events. *)
Theorem X10_funnel_of_readable_rows
    (py : Python) (property_id : string)
    (ga4_backend : RunReportRequest -> result RunReportResponse)
    (clock : wall_clock) (lookback_days : Z) (w : World)
    (range_start range_end : datetime) (response : RunReportResponse)
    (entries : list (string * Z))
    (Hrange : funnel_date_range clock lookback_days
              = Ok (range_start, range_end))
    (Hresp : ga4_backend (funnel_request property_id range_start range_end)
             = Ok response)
    (Hrows : mapM (row_entry py) (rows response) = Ok entries)
    (Hfit : counts_fit (foldl store_entry ∅ entries)) :
  funnel py property_id ga4_backend clock lookback_days w
  = (funnel_table (RDict (foldl store_entry ∅ entries)),
     after_request (funnel_request property_id range_start range_end) w)
  /\ (forall d1 d2 : gmap string Z,
         d1 !! "page_view" = d2 !! "page_view" ->
         d1 !! "click_register" = d2 !! "click_register" ->
         d1 !! "discord_signin" = d2 !! "discord_signin" ->
         funnel_table (RDict d1) = funnel_table (RDict d2)).
Proof.
  split.
  - rewrite funnel_eq, Hrange, run_ga4_report_eq, funnel_build_request, Hresp.
    simpl; unfold shape_response; simpl.
    rewrite rows_to_dict_entries, Hrows; reflexivity.
  - intros d1 d2 H1 H2 H3.
    rewrite !funnel_table_RDict; unfold funnel_totals.
    rewrite H1, H2, H3; reflexivity.
Qed.

Lemma X10_funnel_of_readable_rows_witness :
  funnel ascii_python "123"
    (fun _ => Ok (mkRunReportResponse
                    [mkRow ["page_view"] ["1000"];
                     mkRow ["click_register"] ["250"];
                     mkRow ["discord_signin"] ["40"]]))
    sample_clock 7 (mkWorld [] [])
  = (funnel_table
       (RDict (foldl store_entry ∅
                 [("page_view", 1000%Z); ("click_register", 250%Z);
                  ("discord_signin", 40%Z)])),
     after_request
       (funnel_request "123" (mkDatetime 739917 0 0 0 0 TIMEZONE)
          (datetime_now TIMEZONE sample_clock))
       (mkWorld [] [])).
Proof.
  assert (Hfit : counts_fit
                   (foldl store_entry ∅
                      [("page_view", 1000%Z); ("click_register", 250%Z);
                       ("discord_signin", 40%Z)]))
    by (unfold counts_fit, int64; vm_compute; intuition discriminate).
  exact (proj1 (X10_funnel_of_readable_rows ascii_python "123"
                  (fun _ => Ok (mkRunReportResponse
                                  [mkRow ["page_view"] ["1000"];
                                   mkRow ["click_register"] ["250"];
                                   mkRow ["discord_signin"] ["40"]]))
                  sample_clock 7%Z (mkWorld [] [])
                  (mkDatetime 739917 0 0 0 0 TIMEZONE)
                  (datetime_now TIMEZONE sample_clock) _ _
                  eq_refl eq_refl eq_refl Hfit)).
Defined.

(* ================================================================== *)
(** * The calendar: day numbers and dates *)
(* ================================================================== *)

Lemma all_from_spec (check : Z -> bool) (fuel : nat) :
  forall from,
    Gregorian.all_from check from fuel = true ->
    forall k, (from <= k < from + Z.of_nat fuel)%Z -> check k = true.
Proof.
  induction fuel as [|fuel IH]; intros from Hall k Hk; [lia|].
  simpl in Hall; apply andb_true_iff in Hall as [Hhere Hrest].
  destruct (decide (k = from)) as [->|Hne]; [exact Hhere|].
  apply (IH _ Hrest); lia.
Qed.

Lemma string_length_append (s t : string) :
  String.length (s ++ t) = String.length s + String.length t.
Proof.
  induction s as [|c s IH]; [reflexivity|].
  rewrite append_cons; simpl; rewrite IH; reflexivity.
Qed.

Lemma all_digits_append (s t : string) :
  all_digits (s ++ t) = all_digits s && all_digits t.
Proof.
  induction s as [|c s IH]; [reflexivity|].
  rewrite append_cons; simpl; rewrite IH, andb_assoc; reflexivity.
Qed.

Lemma all_digits_string_of_uint (d : Decimal.uint) :
  all_digits (NilEmpty.string_of_uint d) = true.
Proof. induction d; simpl; auto. Qed.

Lemma all_digits_repeat_zero (j : nat) : all_digits (Str.repeat "0" j) = true.
Proof. induction j; simpl; auto. Qed.

(** A digit is no whitespace, no sign and no underscore. *)
Lemma is_digit_plain (c : ascii) :
  Str.is_digit c = true ->
  Str.is_space c = false
  /\ Ascii.eqb c "-" = false /\ Ascii.eqb c "+" = false
  /\ Ascii.eqb c "_" = false.
Proof.
  destruct c as [b0 b1 b2 b3 b4 b5 b6 b7].
  destruct b0, b1, b2, b3, b4, b5, b6, b7; vm_compute;
    first [discriminate | intros _; repeat split].
Qed.

Lemma all_digits_no_space (s : string) :
  all_digits s = true -> no_space s = true.
Proof.
  induction s as [|c s IH]; simpl; [reflexivity|].
  intros H; apply andb_true_iff in H as [Hc Hs].
  destruct (is_digit_plain c Hc) as (-> & _); rewrite (IH Hs); reflexivity.
Qed.

Lemma digit_run_all_digits (s : string) :
  all_digits s = true -> digit_run false s = Some (String.length s).
Proof.
  induction s as [|c s IH]; simpl; [reflexivity|].
  intros H; apply andb_true_iff in H as [Hc Hs].
  rewrite Hc, (IH Hs); reflexivity.
Qed.

Lemma int_digits_leading_zeros (j : nat) (s : string) :
  forall after_digit,
    int_digits 0 after_digit (Str.repeat "0" j ++ s)
    = int_digits 0 (after_digit || (0 <? j)%nat) s.
Proof.
  induction j as [|j IH]; intros after_digit.
  - rewrite orb_false_r; reflexivity.
  - simpl Str.repeat; rewrite append_cons.
    change (int_digits 0 after_digit (String "0" (Str.repeat "0" j ++ s)))
      with (int_digits 0 true (Str.repeat "0" j ++ s)).
    rewrite IH, orb_true_r; reflexivity.
Qed.

(** [int] on a text of at most 4300 decimal digits. *)
Lemma py_int_all_digits (s : string) (v : Z) :
  all_digits s = true ->
  (String.length s <= MAX_STR_DIGITS)%nat ->
  int_digits 0 false s = Some v ->
  py_int s = Ok v.
Proof.
  intros Hdigits Hlen Hvalue; unfold py_int.
  rewrite (strip_no_space _ (all_digits_no_space _ Hdigits)).
  destruct s as [|c s']; [discriminate Hvalue|].
  pose proof Hdigits as Hall.
  simpl in Hdigits; apply andb_true_iff in Hdigits as [Hc _].
  destruct (is_digit_plain c Hc) as (_ & Hminus & Hplus & Hunder).
  rewrite Hminus, Hplus, Hunder.
  rewrite (digit_run_all_digits _ Hall).
  replace (MAX_STR_DIGITS <? String.length (String c s'))%nat with false
    by (symmetry; apply Nat.ltb_ge; exact Hlen).
  rewrite Hvalue; reflexivity.
Qed.

Lemma py_int_padded_digits (j : nat) (d : Decimal.uint) :
  d ≠ Decimal.Nil ->
  (String.length (Str.repeat "0" j ++ NilEmpty.string_of_uint d)
   <= MAX_STR_DIGITS)%nat ->
  py_int (Str.repeat "0" j ++ NilEmpty.string_of_uint d)
  = Ok (uint_value d 0).
Proof.
  intros Hd Hlen; apply py_int_all_digits; [|exact Hlen|].
  - rewrite all_digits_append, all_digits_repeat_zero,
      all_digits_string_of_uint; reflexivity.
  - rewrite int_digits_leading_zeros.
    apply int_digits_string_of_uint; left; exact Hd.
Qed.

Lemma py_int_pad (width : nat) (k : Z) :
  (0 <= k)%Z ->
  (String.length (Calendar.pad width k) <= MAX_STR_DIGITS)%nat ->
  py_int (Calendar.pad width k) = Ok k.
Proof.
  intros Hk; unfold Calendar.pad, Str.rjust.
  destruct k as [|p|p]; [| |lia].
  - change (Str.of_Z 0) with (NilEmpty.string_of_uint (Decimal.D0 Decimal.Nil)).
    intros Hlen; rewrite py_int_padded_digits by (discriminate || exact Hlen).
    reflexivity.
  - unfold Str.of_Z; intros Hlen.
    rewrite py_int_padded_digits
      by (apply DecimalPos.Unsigned.to_uint_nonnil || exact Hlen).
    rewrite uint_value_zero, DecimalPos.Unsigned.of_to; reflexivity.
Qed.

Section CalendarFacts.
Local Open Scope Z_scope.

Lemma month_day_checked :
  Gregorian.all_from (check_month_day false) 0 365 = true
  /\ Gregorian.all_from (check_month_day true) 0 365 = true.
Proof. split; vm_compute; reflexivity. Qed.

Lemma ord2ymd_unfold (n : Z) :
  Calendar.ord2ymd n
  = let n0 := n - 1 in
    let n400 := n0 / Calendar.DI400Y in
    let a := n0 mod Calendar.DI400Y in
    let n100 := a / Calendar.DI100Y in
    let b := a mod Calendar.DI100Y in
    let n4 := b / Calendar.DI4Y in
    let c := b mod Calendar.DI4Y in
    let n1 := c / 365 in
    let e := c mod 365 in
    let year := n400 * 400 + 1 + n100 * 100 + n4 * 4 + n1 in
    if (n1 =? 4) || (n100 =? 4) then (year - 1, 12, 31)
    else
      let leapyear := (n1 =? 3) && (negb (n4 =? 24) || (n100 =? 3)) in
      let '(m, d) := month_day leapyear e in (year, m, d).
Proof.
  unfold Calendar.ord2ymd, month_day; cbv zeta.
  repeat match goal with
         | |- context [if ?b then _ else _] => destruct b
         end; reflexivity.
Qed.

Lemma day_number_has_a_date (n : Z) (Hn : 1 <= n) :
  exists y m d,
    Calendar.ord2ymd n = (y, m, d)
    /\ Gregorian.valid_date y m d
    /\ Gregorian.ymd2ord y m d = n.
Proof.
  rewrite ord2ymd_unfold; cbv zeta.
  unfold Calendar.DI400Y, Calendar.DI100Y, Calendar.DI4Y.
  set (n0 := n - 1).
  set (n400 := n0 / 146097). set (a := n0 mod 146097).
  set (n100 := a / 36524). set (b := a mod 36524).
  set (n4 := b / 1461). set (c := b mod 1461).
  set (n1 := c / 365). set (e := c mod 365).
  assert (Ha : n0 = 146097 * n400 + a /\ 0 <= a < 146097)
    by (unfold n400, a; split; [apply Z.div_mod|apply Z.mod_pos_bound]; lia).
  assert (Hb : a = 36524 * n100 + b /\ 0 <= b < 36524)
    by (unfold n100, b; split; [apply Z.div_mod|apply Z.mod_pos_bound]; lia).
  assert (Hc : b = 1461 * n4 + c /\ 0 <= c < 1461)
    by (unfold n4, c; split; [apply Z.div_mod|apply Z.mod_pos_bound]; lia).
  assert (He : c = 365 * n1 + e /\ 0 <= e < 365)
    by (unfold n1, e; split; [apply Z.div_mod|apply Z.mod_pos_bound]; lia).
  assert (Hn0 : 0 <= n0) by (unfold n0; lia).
  clearbody n400 a n100 b n4 c n1 e.
  assert (H400 : 0 <= n400) by lia.
  assert (H100 : 0 <= n100 <= 4) by lia.
  assert (H4 : 0 <= n4 <= 24) by lia.
  assert (H1 : 0 <= n1 <= 4) by lia.
  set (year := n400 * 400 + 1 + n100 * 100 + n4 * 4 + n1).
  destruct ((n1 =? 4) || (n100 =? 4)) eqn:Hlast.
  - exists (year - 1), 12, 31; split; [reflexivity|].
    assert (Hleap : Gregorian.is_leap (year - 1) = true).
    { unfold Gregorian.is_leap, year.
      apply orb_true_iff in Hlast as [H|H]; apply Z.eqb_eq in H.
      all: apply andb_true_iff; split;
        [apply Z.eqb_eq|apply orb_true_iff];
        try (Z.div_mod_to_equations; lia).
      all: destruct (decide (n100 = 4)) as [->|];
        [right; apply Z.eqb_eq; Z.div_mod_to_equations; lia
        |left; apply negb_true_iff, Z.eqb_neq; Z.div_mod_to_equations; lia]. }
    split.
    + unfold Gregorian.valid_date, Gregorian.days_in_month.
      simpl; unfold year; lia.
    + unfold Gregorian.ymd2ord, Gregorian.days_before_month,
        Gregorian.days_before_year; rewrite Hleap; cbv zeta; simpl.
      unfold year, n0 in *.
      apply orb_true_iff in Hlast as [H|H]; apply Z.eqb_eq in H;
        Z.div_mod_to_equations; lia.
  - apply orb_false_iff in Hlast as [Hn1 Hn100].
    apply Z.eqb_neq in Hn1; apply Z.eqb_neq in Hn100.
    set (leapyear := (n1 =? 3) && (negb (n4 =? 24) || (n100 =? 3))).
    assert (Hleap : Gregorian.is_leap year = leapyear).
    { unfold Gregorian.is_leap, leapyear, year.
      destruct (Z.eqb_spec n1 3), (Z.eqb_spec n4 24), (Z.eqb_spec n100 3);
        simpl;
        repeat match goal with
               | |- context [?x =? 0] => destruct (Z.eqb_spec x 0)
               end; simpl; try reflexivity;
        exfalso; Z.div_mod_to_equations; lia. }
    assert (Hcheck : check_month_day leapyear e = true).
    { destruct leapyear;
        [apply (all_from_spec _ _ _ (proj2 month_day_checked))
        |apply (all_from_spec _ _ _ (proj1 month_day_checked))];
        simpl; lia. }
    unfold check_month_day in Hcheck.
    destruct (month_day leapyear e) as [m d].
    repeat match goal with
           | H : _ && _ = true |- _ => apply andb_true_iff in H as [? ?]
           | H : (_ =? _) = true |- _ => apply Z.eqb_eq in H
           | H : (_ <=? _) = true |- _ => apply Z.leb_le in H
           end.
    exists year, m, d; split; [reflexivity|]; split.
    + unfold Gregorian.valid_date, Gregorian.days_in_month; rewrite Hleap.
      repeat split; try (unfold year; lia).
      destruct ((m =? 2) && leapyear) eqn:Hfeb; simpl Calendar.b2z in *;
        [|lia].
      apply andb_true_iff in Hfeb as [Hfeb _]; apply Z.eqb_eq in Hfeb.
      subst m; simpl in *; lia.
    + unfold Gregorian.ymd2ord, Gregorian.days_before_month,
        Gregorian.days_before_year; rewrite Hleap; cbv zeta.
      assert (Hdby : (year - 1) * 365 + (year - 1) / 4 - (year - 1) / 100
                     + (year - 1) / 400 = n0 - e)
        by (unfold year; Z.div_mod_to_equations; lia).
      unfold n0 in *; lia.
Qed.

Lemma month_cases (m : Z) :
  1 <= m <= 12 ->
  m = 1 \/ m = 2 \/ m = 3 \/ m = 4 \/ m = 5 \/ m = 6 \/ m = 7 \/ m = 8
  \/ m = 9 \/ m = 10 \/ m = 11 \/ m = 12.
Proof. lia. Qed.

Lemma day_of_year_bounds (y m d : Z) :
  Gregorian.valid_date y m d ->
  1 <= Gregorian.days_before_month y m + d
    <= 365 + Calendar.b2z (Gregorian.is_leap y).
Proof.
  intros (_ & Hm & Hd); revert Hd.
  unfold Gregorian.days_before_month, Gregorian.days_in_month.
  destruct (Gregorian.is_leap y);
    destruct (month_cases m Hm) as [->|[->|[->|[->|[->|[->|[->|[->|[->|[->|[->| ->]]]]]]]]]]];
    simpl; lia.
Qed.

Lemma days_before_year_next (y : Z) :
  Gregorian.days_before_year (y + 1)
  = Gregorian.days_before_year y + 365 + Calendar.b2z (Gregorian.is_leap y).
Proof.
  unfold Gregorian.days_before_year, Gregorian.is_leap; cbv zeta.
  replace (y + 1 - 1) with y by lia.
  destruct (Z.eqb_spec (y mod 4) 0), (Z.eqb_spec (y mod 100) 0),
    (Z.eqb_spec (y mod 400) 0); simpl; Z.div_mod_to_equations; lia.
Qed.

Lemma days_before_year_mono (y y' : Z) :
  y <= y' -> Gregorian.days_before_year y <= Gregorian.days_before_year y'.
Proof.
  unfold Gregorian.days_before_year; cbv zeta; intros H.
  Z.div_mod_to_equations; lia.
Qed.

Lemma ymd2ord_bounds (y m d : Z) :
  Gregorian.valid_date y m d ->
  Gregorian.days_before_year y + 1 <= Gregorian.ymd2ord y m d
    <= Gregorian.days_before_year (y + 1).
Proof.
  intros Hvalid; pose proof (day_of_year_bounds _ _ _ Hvalid).
  rewrite days_before_year_next; unfold Gregorian.ymd2ord; lia.
Qed.

Lemma ymd2ord_inj (y m d y' m' d' : Z) :
  Gregorian.valid_date y m d -> Gregorian.valid_date y' m' d' ->
  Gregorian.ymd2ord y m d = Gregorian.ymd2ord y' m' d' ->
  (y, m, d) = (y', m', d').
Proof.
  intros Hv Hv' Heq.
  pose proof (ymd2ord_bounds _ _ _ Hv) as Hb.
  pose proof (ymd2ord_bounds _ _ _ Hv') as Hb'.
  assert (y = y').
  { destruct (Z.lt_trichotomy y y') as [Hlt|[?|Hlt]]; [|assumption|].
    - pose proof (days_before_year_mono (y + 1) y' ltac:(lia)); lia.
    - pose proof (days_before_year_mono (y' + 1) y ltac:(lia)); lia. }
  subst y'; unfold Gregorian.ymd2ord in Heq.
  destruct Hv as (_ & Hm & Hd), Hv' as (_ & Hm' & Hd').
  assert (Hmd : m = m' /\ d = d').
  { revert Heq Hd Hd'.
    unfold Gregorian.days_before_month, Gregorian.days_in_month.
    destruct (Gregorian.is_leap y);
      destruct (month_cases m Hm) as [->|[->|[->|[->|[->|[->|[->|[->|[->|[->|[->| ->]]]]]]]]]]];
      destruct (month_cases m' Hm') as [->|[->|[->|[->|[->|[->|[->|[->|[->|[->|[->| ->]]]]]]]]]]];
      simpl; lia. }
  destruct Hmd as [-> ->]; reflexivity.
Qed.

(** [ord2ymd] undoes [ymd2ord] on every valid date. *)
Lemma date_has_its_day_number (y m d : Z)
    (Hvalid : Gregorian.valid_date y m d) :
  Calendar.ord2ymd (Gregorian.ymd2ord y m d) = (y, m, d).
Proof.
  pose proof (ymd2ord_bounds _ _ _ Hvalid) as Hb.
  pose proof (days_before_year_mono 1 y ltac:(destruct Hvalid; lia)) as H1.
  change (Gregorian.days_before_year 1) with 0 in H1.
  destruct (day_number_has_a_date (Gregorian.ymd2ord y m d) ltac:(lia))
    as (y' & m' & d' & E & Hvalid' & Hord).
  rewrite E; apply (ymd2ord_inj _ _ _ _ _ _ Hvalid' Hvalid Hord).
Qed.

Lemma days_in_month_le_31 (y m : Z) : Gregorian.days_in_month y m <= 31.
Proof.
  unfold Gregorian.days_in_month.
  destruct ((m =? 2) && Gregorian.is_leap y); [lia|].
  unfold Calendar.DAYS_IN_MONTH.
  destruct m as [|p|p]; try lia.
  do 4 (destruct p as [p|p|]; try lia).
Qed.

Lemma four_digit_year (n y m d : Z) :
  364878 <= n <= Calendar.MAXORDINAL ->
  Gregorian.valid_date y m d ->
  Gregorian.ymd2ord y m d = n ->
  1000 <= y <= 9999.
Proof.
  unfold Calendar.MAXORDINAL; intros Hn Hvalid Hord.
  pose proof (ymd2ord_bounds _ _ _ Hvalid) as Hb.
  split.
  - destruct (Z_lt_le_dec y 1000) as [Hlt|]; [|assumption].
    pose proof (days_before_year_mono (y + 1) 1000 ltac:(lia)) as Hmono.
    change (Gregorian.days_before_year 1000) with 364877 in Hmono; lia.
  - destruct (Z_lt_le_dec 9999 y) as [Hgt|]; [|assumption].
    pose proof (days_before_year_mono 10000 y ltac:(lia)) as Hmono.
    change (Gregorian.days_before_year 10000) with 3652059 in Hmono; lia.
Qed.

Lemma pad_lengths_checked :
  Gregorian.all_from
    (fun k => (String.length (Calendar.pad 4 k) =? 4)%nat) 1000
    (Z.to_nat 9000) = true
  /\ Gregorian.all_from
       (fun k => (String.length (Calendar.pad 2 k) =? 2)%nat) 1 31 = true.
Proof. split; vm_compute; reflexivity. Qed.

Lemma pad4_length (y : Z) :
  1000 <= y <= 9999 -> String.length (Calendar.pad 4 y) = 4%nat.
Proof.
  intros Hy; apply Nat.eqb_eq.
  apply (all_from_spec _ _ _ (proj1 pad_lengths_checked) y).
  rewrite Z2Nat.id by lia; lia.
Qed.

(** A year of four digits needs no padding. *)
Lemma four_digit_years_checked :
  Gregorian.all_from
    (fun k => String.eqb (Str.of_Z k) (Calendar.pad 4 k)) 1000
    (Z.to_nat 9000) = true.
Proof. vm_compute; reflexivity. Qed.

Lemma pad4_year (y : Z) : 1000 <= y <= 9999 -> Str.of_Z y = Calendar.pad 4 y.
Proof.
  intros Hy; apply String.eqb_eq.
  apply (all_from_spec _ _ _ four_digit_years_checked y).
  rewrite Z2Nat.id by lia; lia.
Qed.

Lemma pad2_length (k : Z) :
  1 <= k <= 31 -> String.length (Calendar.pad 2 k) = 2%nat.
Proof.
  intros Hk; apply Nat.eqb_eq.
  apply (all_from_spec _ _ _ (proj2 pad_lengths_checked) k); simpl; lia.
Qed.

(** X11. For every day from 1000-01-01 to 9999-12-31, [format_date] yields
    ten characters, the year on four digits, a hyphen, the month on two, a
    hyphen and the day on two; read back as integers the three fields are
    the year, month and day of a valid calendar date, the one whose day
    number the datetime holds. *)
Theorem X11_format_date_reads_back (dt : datetime)
    (Hday : 364878 <= ordinal dt <= Calendar.MAXORDINAL) :
  exists y m d,
    format_date dt
    = (Calendar.pad 4 y ++ "-" ++ Calendar.pad 2 m ++ "-" ++ Calendar.pad 2 d)
        %string
    /\ String.length (format_date dt) = 10%nat
    /\ String.length (Calendar.pad 4 y) = 4%nat
    /\ String.length (Calendar.pad 2 m) = 2%nat
    /\ String.length (Calendar.pad 2 d) = 2%nat
    /\ py_int (Calendar.pad 4 y) = Ok y
    /\ py_int (Calendar.pad 2 m) = Ok m
    /\ py_int (Calendar.pad 2 d) = Ok d
    /\ Gregorian.valid_date y m d
    /\ Gregorian.ymd2ord y m d = ordinal dt.
Proof.
  destruct (day_number_has_a_date (ordinal dt) ltac:(lia))
    as (y & m & d & E & Hvalid & Hord).
  pose proof (four_digit_year _ _ _ _ Hday Hvalid Hord) as Hy.
  pose proof (days_in_month_le_31 y m) as H31.
  destruct Hvalid as (Hy1 & Hm & Hd).
  assert (Hl4 := pad4_length y Hy).
  assert (Hl2m := pad2_length m ltac:(lia)).
  assert (Hl2d := pad2_length d ltac:(lia)).
  assert (Htext : format_date dt
                  = (Calendar.pad 4 y ++ "-" ++ Calendar.pad 2 m ++ "-"
                       ++ Calendar.pad 2 d)%string).
  { unfold format_date, Calendar.strftime_Ymd; rewrite E, (pad4_year y Hy).
    reflexivity. }
  exists y, m, d; split; [exact Htext|]; split.
  - rewrite Htext, !string_length_append, Hl4, Hl2m, Hl2d; reflexivity.
  - repeat split; try assumption;
      try (apply py_int_pad; [lia|unfold MAX_STR_DIGITS; lia]); lia.
Qed.

Lemma X11_format_date_reads_back_witness :
  exists y m d,
    format_date (datetime_now TIMEZONE sample_clock)
    = (Calendar.pad 4 y ++ "-" ++ Calendar.pad 2 m ++ "-" ++ Calendar.pad 2 d)
        %string
    /\ String.length (format_date (datetime_now TIMEZONE sample_clock)) = 10%nat
    /\ String.length (Calendar.pad 4 y) = 4%nat
    /\ String.length (Calendar.pad 2 m) = 2%nat
    /\ String.length (Calendar.pad 2 d) = 2%nat
    /\ py_int (Calendar.pad 4 y) = Ok y
    /\ py_int (Calendar.pad 2 m) = Ok m
    /\ py_int (Calendar.pad 2 d) = Ok d
    /\ Gregorian.valid_date y m d
    /\ Gregorian.ymd2ord y m d = 739923.
Proof.
  apply (X11_format_date_reads_back (datetime_now TIMEZONE sample_clock)).
  unfold Calendar.MAXORDINAL; simpl; lia.
Defined.

(** X12. Let today be a valid calendar date whose day number the clock
    holds. For a lookback of 7, 14 or 30 days, the date of [range_end] is
    today's, the date of [range_start] is the valid calendar date
    [lookback - 1] days before it, [range_start] is at midnight and
    [range_end] keeps the time of the clock. *)
Theorem X12_date_range_in_calendar_dates
    (clock : wall_clock) (lookback_days y m d : Z)
    (Hlookback : lookback_days ∈ LOOKBACK_OPTIONS)
    (Htoday : Gregorian.valid_date y m d)
    (Hclock : clock_ordinal clock = Gregorian.ymd2ord y m d)
    (Hlate : 30 <= Gregorian.ymd2ord y m d <= Calendar.MAXORDINAL) :
  exists range_start range_end ys ms ds,
    funnel_date_range clock lookback_days = Ok (range_start, range_end)
    /\ Calendar.ord2ymd (ordinal range_end) = (y, m, d)
    /\ Calendar.ord2ymd (ordinal range_start) = (ys, ms, ds)
    /\ Gregorian.valid_date ys ms ds
    /\ Gregorian.ymd2ord ys ms ds + (lookback_days - 1)
       = Gregorian.ymd2ord y m d
    /\ (hour range_start, minute range_start, second range_start,
        microsecond range_start) = (0, 0, 0, 0)
    /\ (hour range_end, minute range_end, second range_end,
        microsecond range_end)
       = (clock_hour clock, clock_minute clock, clock_second clock,
          clock_microsecond clock).
Proof.
  assert (Hdays : 1 <= lookback_days <= 30).
  { unfold LOOKBACK_OPTIONS in Hlookback.
    repeat (apply elem_of_cons in Hlookback as [->|Hlookback]; [lia|]).
    apply elem_of_nil in Hlookback; contradiction. }
  assert (Hrange : date_in_range clock lookback_days)
    by (unfold date_in_range; lia).
  destruct (day_number_has_a_date
              (clock_ordinal clock - (lookback_days - 1)) ltac:(lia))
    as (ys & ms & ds & Estart & Hvalid & Hord).
  eexists _, _, ys, ms, ds; split;
    [apply (funnel_date_range_Ok _ _ Hrange)|].
  simpl; rewrite Hclock in *.
  split; [exact (date_has_its_day_number _ _ _ Htoday)|].
  split; [exact Estart|].
  split; [exact Hvalid|].
  split; [lia|].
  split; reflexivity.
Qed.

Lemma X12_date_range_in_calendar_dates_witness :
  exists range_start range_end ys ms ds,
    funnel_date_range sample_clock 14 = Ok (range_start, range_end)
    /\ Calendar.ord2ymd (ordinal range_end) = (2026, 11, 3)
    /\ Calendar.ord2ymd (ordinal range_start) = (ys, ms, ds)
    /\ Gregorian.valid_date ys ms ds
    /\ Gregorian.ymd2ord ys ms ds + (14 - 1) = Gregorian.ymd2ord 2026 11 3
    /\ (hour range_start, minute range_start, second range_start,
        microsecond range_start) = (0, 0, 0, 0)
    /\ (hour range_end, minute range_end, second range_end,
        microsecond range_end)
       = (clock_hour sample_clock, clock_minute sample_clock,
          clock_second sample_clock, clock_microsecond sample_clock).
Proof.
  apply (X12_date_range_in_calendar_dates sample_clock 14 2026 11 3).
  - unfold LOOKBACK_OPTIONS; apply list_elem_of_further, list_elem_of_here.
  - unfold Gregorian.valid_date; vm_compute; intuition discriminate.
  - reflexivity.
  - vm_compute; intuition discriminate.
Defined.

End CalendarFacts.

(* ================================================================== *)
(** * Rendering of counts *)
(* ================================================================== *)

(** ** Thousands separators *)

Lemma substring_whole (s : string) : String.substring 0 (String.length s) s = s.
Proof. induction s as [|c s IH]; simpl; [reflexivity|rewrite IH; reflexivity]. Qed.

Lemma substring_split (s : string) :
  forall k,
    k <= String.length s ->
    String.substring 0 k s ++ String.substring k (String.length s - k) s = s.
Proof.
  induction s as [|c s IH]; intros [|k] Hk; simpl in *; try lia.
  - reflexivity.
  - rewrite append_nil, substring_whole; reflexivity.
  - rewrite append_cons, IH by lia; reflexivity.
Qed.

Lemma remove_commas_append (s t : string) :
  remove_commas (s ++ t) = remove_commas s ++ remove_commas t.
Proof.
  induction s as [|c s IH]; [reflexivity|].
  rewrite append_cons; simpl; rewrite IH.
  destruct (Ascii.eqb c ","); reflexivity.
Qed.

Lemma remove_commas_group3 (fuel : nat) :
  forall s, remove_commas (Float.group3 fuel s) = remove_commas s.
Proof.
  induction fuel as [|fuel IH]; intros s; simpl; [reflexivity|].
  destruct (String.length s <=? 3)%nat eqn:Hlen; [reflexivity|].
  apply Nat.leb_gt in Hlen.
  rewrite remove_commas_append, IH.
  change (remove_commas ("," ++ ?t)) with (remove_commas t).
  rewrite <- remove_commas_append.
  pose proof (substring_split s (String.length s - 3) ltac:(lia)) as Hsplit.
  replace (String.length s - (String.length s - 3)) with 3 in Hsplit by lia.
  rewrite Hsplit; reflexivity.
Qed.

Lemma remove_commas_no_comma (s : string) :
  no_comma s = true -> remove_commas s = s.
Proof.
  induction s as [|c s IH]; simpl; [reflexivity|].
  intros H; apply andb_true_iff in H as [Hc Hs].
  apply negb_true_iff in Hc; rewrite Hc, (IH Hs); reflexivity.
Qed.

Lemma no_comma_string_of_uint (d : Decimal.uint) :
  no_comma (NilEmpty.string_of_uint d) = true.
Proof. induction d; simpl; auto. Qed.

Lemma no_comma_of_Z (n : Z) : no_comma (Str.of_Z n) = true.
Proof.
  destruct n; simpl; [reflexivity|apply no_comma_string_of_uint|].
  change ("-" ++ ?s) with (String "-" s); simpl.
  apply no_comma_string_of_uint.
Qed.

Lemma no_comma_append (s t : string) :
  no_comma (s ++ t) = no_comma s && no_comma t.
Proof.
  induction s as [|c s IH]; [reflexivity|].
  rewrite append_cons; simpl; rewrite IH, andb_assoc; reflexivity.
Qed.

Lemma no_comma_repeat_zero (j : nat) : no_comma (Str.repeat "0" j) = true.
Proof. induction j; simpl; auto. Qed.

Lemma fixed_digits_commas (n : Z) :
  remove_commas (Float.fixed_digits true 0 n) = Float.fixed_digits false 0 n.
Proof.
  unfold Float.fixed_digits; cbv zeta.
  rewrite remove_commas_group3, Nat.sub_0_r, substring_whole.
  apply remove_commas_no_comma.
  unfold Str.rjust.
  rewrite no_comma_append, no_comma_repeat_zero, no_comma_of_Z; reflexivity.
Qed.

(** X15. Thousands separators only add commas. Without its commas the
    lifetime value is the decimal text of the count, and a cell of the
    ["Total"] column is the total rendered with no decimals and no
    grouping, or the sentinel when the total is absent. *)
Theorem X15_separators_only_add_commas :
  (forall n : Z, remove_commas (format_int_comma n) = Str.of_Z n)
  /\ (forall x : float,
         remove_commas (render_total x)
         = if Float.notna x then Float.format_f false 0 x else SENTINEL).
Proof.
  split.
  - intros n; unfold format_int_comma; cbv zeta.
    rewrite remove_commas_append, remove_commas_group3.
    rewrite (remove_commas_no_comma _ (no_comma_of_Z _)).
    destruct n as [|p|p]; reflexivity.
  - intros x; unfold render_total.
    destruct (Float.notna x); [|reflexivity].
    unfold Float.format_comma0, Float.format_f.
    destruct (FloatOps.Prim2SF x) as [s|s| |s m e];
      try destruct s; try reflexivity;
      rewrite remove_commas_append, fixed_digits_commas; reflexivity.
Qed.

(* ================================================================== *)
(** * The connection tester *)
(* ================================================================== *)

Section TesterFacts.
Import Tester TesterSpec.

Variable secrets : gmap string string.
Variable failure_text : failure -> string.

Lemma check_loop_eq (names : list string) :
  forall all_secrets_found,
    check_loop secrets names all_secrets_found
    = (map (status secrets) names,
       all_secrets_found
       && forallb (fun name => found (secrets !! name)) names).
Proof.
  induction names as [|name names IH]; intros flag; simpl.
  - rewrite andb_true_r; reflexivity.
  - unfold status at 1.
    destruct (found (secrets !! name)); rewrite IH; simpl;
      [reflexivity|rewrite andb_false_r; reflexivity].
Qed.

Lemma check_secrets_eq :
  check_secrets secrets
  = ([Header "1. Secrets Configuration Check"]
       ++ map (status secrets) SECRET_NAMES
       ++ [Info "Your secrets file should be located at `.streamlit/secrets.toml`"],
     forallb (fun name => found (secrets !! name)) SECRET_NAMES)%list.
Proof. unfold check_secrets; rewrite check_loop_eq; reflexivity. Qed.

Lemma all_found_iff :
  forallb (fun name => found (secrets !! name)) SECRET_NAMES = true
  <-> all_found secrets.
Proof.
  unfold all_found; rewrite forallb_forall; split; intros H name Hin;
    apply H, list_elem_of_In, Hin.
Qed.

Lemma status_is_error (name : string) :
  is_error (status secrets name) = negb (found (secrets !! name)).
Proof. unfold status; destruct (found (secrets !! name)); reflexivity. Qed.

Lemma errors_shown (names : list string) :
  length (filter (fun e => is_error e = true) (map (status secrets) names))
  = length (filter (fun name => found (secrets !! name) = false) names).
Proof.
  induction names as [|name names IH]; [reflexivity|].
  cbn [map]; rewrite !filter_cons.
  pose proof (status_is_error name) as Hs.
  destruct (found (secrets !! name)); simpl in Hs;
    repeat case_decide; try congruence; simpl; rewrite IH; reflexivity.
Qed.

(** X16. [check_secrets] answers True exactly when the four secrets are
    all there and not empty. It shows six lines: its header, one line per
    secret in the order of the dict (a success line when the secret is
    found, an error line otherwise), and the hint on the secrets file; so
    it shows as many error lines as secrets are missing. *)
Theorem X16_check_secrets_verdict :
  exists shown verdict,
    check_secrets secrets = (shown, verdict)
    /\ (verdict = true <-> all_found secrets)
    /\ length shown = 6
    /\ shown !! 0 = Some (Header "1. Secrets Configuration Check")
    /\ (forall i name,
           SECRET_NAMES !! i = Some name ->
           shown !! S i = Some (status secrets name))
    /\ shown !! 5
       = Some (Info "Your secrets file should be located at `.streamlit/secrets.toml`")
    /\ length (filter (fun e => is_error e = true) shown) = missing secrets.
Proof.
  eexists _, _; split; [apply check_secrets_eq|].
  split; [apply all_found_iff|].
  split; [reflexivity|]; split; [reflexivity|]; split; [|split; [reflexivity|]].
  - intros i name Hi.
    change (([Header "1. Secrets Configuration Check"] ++ ?l)%list !! S i)
      with (l !! i).
    rewrite lookup_app_l by (apply lookup_lt_Some in Hi; exact Hi).
    rewrite lookup_map, Hi; reflexivity.
  - change ([Header "1. Secrets Configuration Check"] ++ ?l)%list
      with (Header "1. Secrets Configuration Check" :: l).
    rewrite filter_cons_False by discriminate.
    rewrite filter_app, length_app, errors_shown.
    unfold missing; rewrite filter_cons_False by discriminate.
    rewrite filter_nil; simpl; lia.
Qed.

Lemma main_eq (supabase_probe : string -> string -> outcome Z)
    (ga4_probe : string -> string -> outcome nat)
    (secrets_file_exists : bool) :
  main secrets failure_text supabase_probe ga4_probe secrets_file_exists
  = if negb secrets_file_exists then
      [ Title "Dashboard Connection Tester";
        Error "`.streamlit/secrets.toml` file not found.";
        Info "Please copy `.streamlit/secrets.toml.example` to `.streamlit/secrets.toml` and add your secrets." ]
    else if snd (check_secrets secrets) then
      (Title "Dashboard Connection Tester" :: fst (check_secrets secrets)
         ++ [Markdown "---"]
         ++ fst (test_supabase_connection secrets failure_text supabase_probe)
         ++ [Markdown "---"]
         ++ fst (test_ga4_connection secrets failure_text ga4_probe)
         ++ [Markdown "---"]
         ++ (if snd (test_supabase_connection secrets failure_text
                       supabase_probe)
                && snd (test_ga4_connection secrets failure_text ga4_probe)
             then [Balloons;
                   Success "🎉 All connections are working correctly!"]
             else [Error "One or more connections failed. Please review the error messages above."]))%list
    else Title "Dashboard Connection Tester" :: fst (check_secrets secrets).
Proof.
  unfold main.
  generalize (check_secrets secrets); intros [shown_secrets secrets_found].
  generalize (test_supabase_connection secrets failure_text supabase_probe);
    intros [shown_supabase supabase_ok].
  generalize (test_ga4_connection secrets failure_text ga4_probe);
    intros [shown_ga4 ga4_ok].
  reflexivity.
Qed.

Variable supabase_probe : string -> string -> outcome Z.
Variable ga4_probe : string -> string -> outcome nat.

Lemma balloons_elem (screen : list element) :
  Balloons ∈ screen <-> existsb is_balloons screen = true.
Proof.
  rewrite existsb_exists; split.
  - intros H; exists Balloons; split; [apply list_elem_of_In, H|reflexivity].
  - intros (e & Hin & He); destruct e; try discriminate.
    apply list_elem_of_In, Hin.
Qed.

Lemma no_balloons_in_secrets :
  existsb is_balloons (fst (check_secrets secrets)) = false.
Proof.
  rewrite check_secrets_eq; cbn [fst]; rewrite !existsb_app.
  assert (H : forall names,
             existsb is_balloons (map (status secrets) names) = false).
  { induction names as [|name names IH]; [reflexivity|].
    cbn [map existsb]; rewrite IH; unfold status.
    destruct (found (secrets !! name)); reflexivity. }
  rewrite H; reflexivity.
Qed.

Lemma test_supabase_connection_facts :
  existsb is_balloons
    (fst (test_supabase_connection secrets failure_text supabase_probe))
  = false
  /\ (snd (test_supabase_connection secrets failure_text supabase_probe)
      = true
      <-> exists n, supabase_attempt secrets supabase_probe = Passed n)
  /\ head (fst (test_supabase_connection secrets failure_text supabase_probe))
     = Some (Header "2. Supabase Connection Test").
Proof.
  unfold test_supabase_connection.
  generalize (supabase_attempt secrets supabase_probe); intros [n|e].
  - repeat split; eauto.
  - destruct e; (split; [reflexivity|]); (split; [|reflexivity]);
      (split; [discriminate|intros [? ?]; discriminate]).
Qed.

Lemma test_ga4_connection_facts :
  existsb is_balloons
    (fst (test_ga4_connection secrets failure_text ga4_probe))
  = false
  /\ (snd (test_ga4_connection secrets failure_text ga4_probe) = true
      <-> exists n, ga4_attempt secrets ga4_probe = Passed n)
  /\ head (fst (test_ga4_connection secrets failure_text ga4_probe))
     = Some (Header "3. GA4 Connection Test").
Proof.
  unfold test_ga4_connection.
  generalize (ga4_attempt secrets ga4_probe); intros [n|e].
  - repeat split; eauto.
  - destruct e; (split; [reflexivity|]); (split; [|reflexivity]);
      (split; [discriminate|intros [? ?]; discriminate]).
Qed.

Lemma check_secrets_verdict :
  snd (check_secrets secrets) = true <-> all_found secrets.
Proof. rewrite check_secrets_eq; apply all_found_iff. Qed.

(** X17. Run as a program, the tester celebrates (balloons) exactly when
    the secrets file exists, the four secrets are found and both
    connection attempts pass. When the file and the secrets are there it
    runs both tests, the GA4 one also after a Supabase failure; when the
    file or a secret is missing it attempts no connection at all. *)
Theorem X17_tester_celebrates_iff_all_pass (secrets_file_exists : bool) :
  (Balloons ∈ main secrets failure_text supabase_probe ga4_probe
                secrets_file_exists
   <-> secrets_file_exists = true
       /\ all_found secrets
       /\ (exists n, supabase_attempt secrets supabase_probe = Passed n)
       /\ (exists n, ga4_attempt secrets ga4_probe = Passed n))
  /\ (secrets_file_exists = true -> all_found secrets ->
      Header "2. Supabase Connection Test"
        ∈ main secrets failure_text supabase_probe ga4_probe
            secrets_file_exists
      /\ Header "3. GA4 Connection Test"
           ∈ main secrets failure_text supabase_probe ga4_probe
               secrets_file_exists)
  /\ (secrets_file_exists = false \/ ~ all_found secrets ->
      forall other_supabase_probe other_ga4_probe,
        main secrets failure_text other_supabase_probe other_ga4_probe
          secrets_file_exists
        = main secrets failure_text supabase_probe ga4_probe
            secrets_file_exists).
Proof.
  destruct test_supabase_connection_facts as (Hsb_none & Hsb_ok & Hsb_head).
  destruct test_ga4_connection_facts as (Hga_none & Hga_ok & Hga_head).
  pose proof check_secrets_verdict as Hverdict.
  pose proof no_balloons_in_secrets as Hsecrets_none.
  split; [|split].
  - rewrite balloons_elem, main_eq.
    destruct secrets_file_exists; cbn [negb];
      [|split; [discriminate|intros [? _]; discriminate]].
    destruct (snd (check_secrets secrets)).
    + cbn [existsb is_balloons orb]; rewrite !existsb_app.
      rewrite Hsecrets_none, Hsb_none, Hga_none; cbn [existsb is_balloons orb].
      rewrite <- Hsb_ok, <- Hga_ok.
      destruct (snd (test_supabase_connection _ _ _)),
        (snd (test_ga4_connection _ _ _)); cbn; intuition congruence.
    + cbn [existsb is_balloons orb]; rewrite Hsecrets_none.
      split; [discriminate|].
      intros (_ & Hall & _); apply Hverdict in Hall; discriminate.
  - intros -> Hall; apply Hverdict in Hall.
    rewrite main_eq, Hall; cbn [negb].
    apply head_Some_elem_of in Hsb_head, Hga_head.
    split; apply list_elem_of_further; rewrite !elem_of_app; tauto.
  - intros Hno other_supabase_probe other_ga4_probe.
    rewrite !main_eq.
    destruct secrets_file_exists; cbn [negb]; [|reflexivity].
    destruct Hno as [Hno|Hno]; [discriminate|].
    destruct (snd (check_secrets secrets)); [|reflexivity].
    exfalso; apply Hno, Hverdict; reflexivity.
Qed.

End TesterFacts.

Lemma X17_tester_celebrates_iff_all_pass_witness :
  Tester.Balloons
  ∈ Tester.main Tester.sample_secrets (fun _ => "") Tester.probe_fine Tester.probe_rows
      true.
Proof.
  apply (proj1 (X17_tester_celebrates_iff_all_pass Tester.sample_secrets
                  (fun _ => "") Tester.probe_fine Tester.probe_rows true)).
  split; [reflexivity|]; split; [|split; [exists 7%Z|exists 1]; reflexivity].
  intros name Hin; unfold Tester.SECRET_NAMES in Hin.
  repeat (apply elem_of_cons in Hin as [->|Hin]; [reflexivity|]).
  apply elem_of_nil in Hin; contradiction.
Defined.
